(** * gammapy.utils.fitting.scipy: point optimisation and profile-likelihood
      confidence intervals

    A shallow embedding of [optimize_scipy], [TSDifference],
    [_confidence_scipy_brentq], [confidence_scipy] and [covariance_scipy].

    - Python floats are IEEE binary64 numbers: primitive floats.
    - Parameter objects are mutable and shared between the parameter set and
      the caller's [parameter] argument, so they live in a store indexed by
      references; a parameter set is a list of references.
    - [scipy.optimize.minimize] and [scipy.optimize.brentq] are external.
      They only interact with the program by calling the objective they are
      given, so each is a function from its arguments to a finite tree of
      such calls.
    - A Python call either returns a value or raises; in both cases it leaves
      a store behind. *)

From Stdlib Require Import PrimFloat ZArith List String Bool.
From Stdlib Require Import FunctionalExtensionality.
From Stdlib Require Import SpecFloat FloatOps FloatAxioms.
From stdpp Require Import gmap strings.

Import ListNotations.
Local Open Scope string_scope.

(** ** Python values, dictionaries and exceptions *)

Inductive Value : Type :=
| VInt (z : Z)
| VFloat (v : float)
| VBool (b : bool)
| VStr (s : string).

Abbreviation dict := (gmap string Value).

Inductive Exception : Type :=
| ValueError
| IndexError
| RuntimeError
| NotImplementedError
| UnboundLocalError
| OtherError (what : string).

Inductive Outcome (A : Type) : Type :=
| Returns (a : A)
| Raises (e : Exception).

Arguments Returns {A} a.
Arguments Raises {A} e.

(** ** The parameter store *)

(** Modelled from the spec: the [Parameter] class (here [Param]) is not part
    of the sources at hand.  Section 3 gives its fields; an unset bound is
    NaN, which is what [np.isnan] tests for in the code. *)
Record Param : Type := mkParam {
  par_name : string;
  par_value : float;
  par_scale : float;
  par_factor_min : float;
  par_factor_max : float;
  par_frozen : bool
}.

(** Modelled from the spec: [factor = value / scale]. *)
Definition factor (p : Param) : float := (par_value p / par_scale p)%float.

(** Modelled from the spec: the mutator of [factor], keeping the scale. *)
Definition with_factor (v : float) (p : Param) : Param :=
  mkParam (par_name p) (v * par_scale p)%float (par_scale p)
              (par_factor_min p) (par_factor_max p) (par_frozen p).

(** Modelled from the spec: the mutators of [value] and [frozen]. *)
Definition with_value (v : float) (p : Param) : Param :=
  mkParam (par_name p) v (par_scale p)
              (par_factor_min p) (par_factor_max p) (par_frozen p).

Definition with_frozen (b : bool) (p : Param) : Param :=
  mkParam (par_name p) (par_value p) (par_scale p)
              (par_factor_min p) (par_factor_max p) b.

Definition ref : Type := nat.

Definition Heap : Type := ref -> Param.

Definition update (h : Heap) (r : ref) (p : Param) : Heap :=
  fun r' => if Nat.eqb r' r then p else h r'.

Definition set_factor (r : ref) (v : float) (h : Heap) : Heap :=
  update h r (with_factor v (h r)).

Definition set_frozen (r : ref) (b : bool) (h : Heap) : Heap :=
  update h r (with_frozen b (h r)).

(** Modelled from the spec: the [Parameters] collection (here [ParamSet]),
    an ordered sequence of parameters with an externally supplied standard
    error for each. *)
Record ParamSet : Type := mkParamSet {
  pars : list ref;
  error : ref -> float
}.

(** The state of the set that an objective function can read. *)
Definition view (parameters : ParamSet) (h : Heap) : list Param :=
  map h (pars parameters).

(** An objective function is a deterministic function of the set's state
    that returns a float on every state.  A call in which the objective
    itself raises is not described here: the statements below that speak of
    a call raising are about errors of the external routines and of the
    module's own code, and every statement about the store a call leaves is
    made for calls in which the objective returned. *)
Definition Objective : Type := list Param -> float.

(** Modelled from the spec: [Parameters.free_parameters], the free parameters
    in set order. *)
Definition free_parameters (parameters : ParamSet) (h : Heap) : list ref :=
  List.filter (fun r => negb (par_frozen (h r))) (pars parameters).

(** ** Computations on the store *)

Definition Py (A : Type) : Type := Heap -> Outcome A * Heap.

Definition ret {A} (a : A) : Py A := fun h => (Returns a, h).

Definition raise {A} (e : Exception) : Py A := fun h => (Raises e, h).

Definition bind {A B} (m : Py A) (k : A -> Py B) : Py B :=
  fun h =>
    match m h with
    | (Returns a, h') => k a h'
    | (Raises e, h') => (Raises e, h')
    end.

Notation "'do' x <~ m ; k" := (bind m (fun x => k))
  (at level 10, x name, m at level 100, k at level 200).
Notation "'run' m ; k" := (bind m (fun _ => k))
  (at level 10, m at level 100, k at level 200).

Definition get_heap : Py Heap := fun h => (Returns h, h).

Definition modify (f : Heap -> Heap) : Py unit := fun h => (Returns tt, f h).

(** ** External numerical routines *)

(** A routine that may only call back the function it was handed: it returns,
    raises, or asks for the function's value at a point and goes on from the
    answer. *)
Inductive Routine (Q R : Type) : Type :=
| Done (r : R)
| Fail (e : Exception)
| Ask (q : Q) (k : float -> Routine Q R).

Arguments Done {Q R} r.
Arguments Fail {Q R} e.
Arguments Ask {Q R} q k.

(** Running a routine against a Python callback.  An exception raised by the
    callback passes through the routine. *)
Fixpoint run_routine {Q R} (callback : Q -> Py float) (t : Routine Q R) : Py R :=
  match t with
  | Done r => ret r
  | Fail e => raise e
  | Ask q k =>
      fun h =>
        match callback q h with
        | (Returns v, h') => run_routine callback (k v) h'
        | (Raises e, h') => (Raises e, h')
        end
  end.

Definition Options : Type := list (string * Value).

(** The [OptimizeResult] of [scipy.optimize.minimize]. *)
Record OptimizeResult : Type := mkOptimizeResult {
  res_x : list float;
  res_success : bool;
  res_message : string;
  res_nfev : Z
}.

(** The [RootResults] of [scipy.optimize.brentq] with [full_output=True]. *)
Record RootResults : Type := mkRootResults {
  rr_root : float;
  rr_iterations : Z;
  rr_function_calls : Z;
  rr_converged : bool
}.

Definition Minimizer : Type :=
  list float -> list (option float * option float) -> string -> Options ->
  Routine (list float) OptimizeResult.

Definition RootFinder : Type :=
  float -> float -> Options -> Routine float (float * RootResults).

(** Keyword arguments of [optimize_scipy]: [method] is popped, the rest goes
    to [minimize]. *)
Record OptimizeKwargs : Type := mkOptimizeKwargs {
  kw_method : option string;
  kw_minimize : Options
}.

Definition no_kwargs : OptimizeKwargs := mkOptimizeKwargs None [].

(** Keyword arguments of the confidence functions: the endpoints [a] and [b]
    when the caller gives them, the rest goes to [brentq]. *)
Record ConfidenceKwargs : Type := mkConfidenceKwargs {
  kw_a : option float;
  kw_b : option float;
  kw_brentq : Options
}.

(** ** Likelihood adapter *)

Fixpoint set_parameter_factors (rs : list ref) (factors : list float) (h : Heap) : Heap :=
  match rs, factors with
  | r :: rs', v :: factors' => set_parameter_factors rs' factors' (set_factor r v h)
  | _, _ => h
  end.

(** Modelled from the spec: [Likelihood.fcn] of the module [.likelihood],
    which is not part of the sources at hand (section 4.1): write the factors
    into the free parameters, in order, then evaluate the objective on the
    whole set; a vector of the wrong length fails. *)
Definition Likelihood_fcn (function : Objective) (parameters : ParamSet)
    (factors : list float) : Py float :=
  fun h =>
    let free := free_parameters parameters h in
    if Nat.eqb (length free) (length factors) then
      let h' := set_parameter_factors free factors h in
      (Returns (function (view parameters h')), h')
    else (Raises (OtherError "length mismatch"), h).

(** ** Scoped restoration *)

(** Modelled from the spec: the value and frozen flag of each parameter, and
    putting them back one parameter at a time. *)
Definition snapshot_of (h : Heap) (rs : list ref) : list (ref * float * bool) :=
  map (fun r => (r, par_value (h r), par_frozen (h r))) rs.

Definition snapshot (parameters : ParamSet) (h : Heap) : list (ref * float * bool) :=
  snapshot_of h (pars parameters).

Definition restore_one (h : Heap) (s : ref * float * bool) : Heap :=
  let '(r, v, f) := s in update h r (with_frozen f (with_value v (h r))).

Definition restore (snap : list (ref * float * bool)) (h : Heap) : Heap :=
  fold_left restore_one snap h.

(** Modelled from the spec: [Parameters.restore_values], which is not part
    of the sources at hand (section 3): snapshot every parameter's value and
    frozen flag on entry, put them back on every exit path. *)
Definition restore_values {A} (parameters : ParamSet) (body : Py A) : Py A :=
  fun h =>
    let snap := snapshot parameters h in
    let '(o, h') := body h in
    (o, restore snap h').

(** ** The module *)

Section Fitting.

(** [scipy.optimize.minimize], [scipy.optimize.brentq] and the power function
    behind Python's [**] on floats are provided from outside.  The power
    function is taken to return a float: [OverflowError] from [sigma ** 2]
    is not described here. *)
Variable minimize : Minimizer.
Variable brentq : RootFinder.
Variable float_pow : float -> float -> float.

Definition not_nan (v : float) : option float :=
  if is_nan v then None else Some v.

(** Line 12: the starting vector. *)
Definition initial_factors (parameters : ParamSet) (h : Heap) : list float :=
  map (fun par => factor (h par)) (free_parameters parameters h).

(** Lines 14 to 18: one pair of bounds per free parameter, [None] for NaN. *)
Definition factor_bounds (parameters : ParamSet) (h : Heap)
  : list (option float * option float) :=
  map (fun par => (not_nan (par_factor_min (h par)),
                   not_nan (par_factor_max (h par))))
      (free_parameters parameters h).

(** Line 24: the [info] dictionary. *)
Definition optimize_info (result : OptimizeResult) : dict :=
  <["success" := VBool (res_success result)]>
    (<["message" := VStr (res_message result)]>
       (<["nfev" := VInt (res_nfev result)]> ∅)).

Definition optimize_scipy (parameters : ParamSet) (function : Objective)
    (kwargs : OptimizeKwargs)
  : Py (list float * dict * option unit) :=
  let method := default "Nelder-Mead" (kw_method kwargs) in
  do h <~ get_heap;
  let pars := initial_factors parameters h in
  let bounds := factor_bounds parameters h in
  do result <~ run_routine (Likelihood_fcn function parameters)
                           (minimize pars bounds method (kw_minimize kwargs));
  let factors := res_x result in
  let info := optimize_info result in
  let optimizer : option unit := None in
  ret (factors, info, optimizer).

(** The attributes of a [TSDifference] object.  [parameters] and [parameter]
    are references into the store, so the object never goes stale. *)
Record TSDifference : Type := mkTSDifference {
  loglike_ref : float;
  ts_parameters : ParamSet;
  ts_function : Objective;
  ts_parameter : ref;
  ts_diff : float
}.

(** [TSDifference.__init__] *)
Definition TSDifference_init (function : Objective) (parameters : ParamSet)
    (parameter : ref) (ts_diff : float) : Py TSDifference :=
  do h <~ get_heap;
  let loglike_ref := function (view parameters h) in
  run modify (set_frozen parameter true);
  ret (mkTSDifference loglike_ref parameters function parameter ts_diff).

(** [TSDifference.fcn] *)
Definition TSDifference_fcn (self : TSDifference) (factor : float) : Py float :=
  run modify (set_factor (ts_parameter self) factor);
  run optimize_scipy (ts_parameters self) (ts_function self) no_kwargs;
  do h <~ get_heap;
  let value :=
    (ts_function self (view (ts_parameters self) h)
       - loglike_ref self - ts_diff self)%float in
  ret value.

(** Lines 50 to 61: the two endpoints handed to [brentq], computed in the
    store left by the constructor of [TSDifference]. *)
Definition search_interval (parameters : ParamSet) (parameter : ref)
    (upper : bool) (kwargs : ConfidenceKwargs) (h : Heap) : float * float :=
  let a := default (factor (h parameter)) (kw_a kwargs) in
  let bound :=
    if upper then par_factor_max (h parameter) else par_factor_min (h parameter) in
  let bound :=
    if is_nan bound then
      if upper then
        (factor (h parameter)
           + 100 * error parameters parameter / par_scale (h parameter))%float
      else
        (factor (h parameter)
           - 100 * error parameters parameter / par_scale (h parameter))%float
    else bound in
  let b := default bound (kw_b kwargs) in
  (a, b).

(** Lines 63 to 70: the guarded call.  The local variable [result] is bound
    only when [brentq] returns; [except ValueError] leaves it unbound. *)
Definition try_brentq (ts_diff : TSDifference) (a b : float) (rest : Options)
  : Py (option (float * RootResults) * string * bool) :=
  fun h =>
    match run_routine (TSDifference_fcn ts_diff) (brentq a b rest) h with
    | (Returns result, h') =>
        (Returns (Some result, "Confidence terminated successfully.", true), h')
    | (Raises ValueError, h') =>
        (Returns (None,
                  "Confidence estimation failed, because bracketing interval"
                  +:+ " does not contain a unique solution. Try setting the interval by hand.",
                  false), h')
    | (Raises e, h') => (Raises e, h')
    end.

(** Lines 72 to 80: the returned dictionary.  Reading the unbound [result]
    raises [UnboundLocalError]. *)
Definition confidence_dict (ts_diff : TSDifference) (a : float) (upper : bool)
    (result : option (float * RootResults)) (message : string) (success : bool)
  : Py dict :=
  let suffix := if upper then "errp" else "errn" in
  match result with
  | None => raise UnboundLocalError
  | Some result =>
      ret (<["nfev_" +:+ suffix := VInt (rr_iterations (snd result))]>
          (<[suffix := VFloat (abs (fst result - a))]>
          (<["success_" +:+ suffix := VBool success]>
          (<["message_" +:+ suffix := VStr message]>
          (<["loglike_ref" := VFloat (loglike_ref ts_diff)]> ∅)))))
  end.

(** Lines 63 to 80 together. *)
Definition bracket_search (ts_diff : TSDifference) (a b : float)
    (rest : Options) (upper : bool) : Py dict :=
  do r <~ try_brentq ts_diff a b rest;
  let '(result, message, success) := r in
  confidence_dict ts_diff a upper result message success.

Definition _confidence_scipy_brentq (parameters : ParamSet) (parameter : ref)
    (function : Objective) (sigma : float) (upper : bool)
    (kwargs : ConfidenceKwargs) : Py dict :=
  do ts_diff <~ TSDifference_init function parameters parameter
                  (float_pow sigma 2);
  do h <~ get_heap;
  let '(a, b) := search_interval parameters parameter upper kwargs h in
  bracket_search ts_diff a b (kw_brentq kwargs) upper.

(** [result.update(result_errp)]: the keys of [result_errp] win. *)
Definition dict_update (result result_errp : dict) : dict :=
  result_errp ∪ result.

(** Each call receives its own copy of [kwargs], so what [setdefault] adds
    in the lower search is not seen by the upper search. *)
Definition confidence_scipy (parameters : ParamSet) (parameter : ref)
    (function : Objective) (sigma : float) (kwargs : ConfidenceKwargs)
  : Py dict :=
  do result <~ restore_values parameters
      (_confidence_scipy_brentq parameters parameter function sigma false kwargs);
  do result_errp <~ restore_values parameters
      (_confidence_scipy_brentq parameters parameter function sigma true kwargs);
  ret (dict_update result result_errp).

Definition covariance_scipy (parameters : ParamSet) (function : Objective)
  : Py unit :=
  raise NotImplementedError.

End Fitting.

(** ** Observing a routine *)

(** The same routine with its returned value post-processed. *)
Fixpoint map_routine {Q R R'} (g : R -> R') (t : Routine Q R) : Routine Q R' :=
  match t with
  | Done r => Done (g r)
  | Fail e => Fail e
  | Ask q k => Ask q (fun v => map_routine g (k v))
  end.

(** The last answer a routine received from its callback, [last] when it
    asked nothing. *)
Fixpoint last_answer {Q R} (callback : Q -> Py float) (t : Routine Q R)
    (last : option float) (h : Heap) : option float :=
  match t with
  | Done _ => last
  | Fail _ => last
  | Ask q k =>
      match callback q h with
      | (Returns v, h') => last_answer callback (k v) (Some v) h'
      | (Raises _, _) => last
      end
  end.

(** ** Concrete routines, stores and objectives *)

Module Sample.

(** A minimizer that evaluates its objective at the starting point and
    stops there. *)
Definition evaluate_once : Minimizer :=
  fun x0 bounds method opts =>
    Ask x0 (fun _ =>
      Done (mkOptimizeResult x0 true "Optimization terminated successfully." 1)).

(** A minimizer that stalls at once: one evaluation, no convergence. *)
Definition stall : Minimizer :=
  fun x0 bounds method opts =>
    Ask x0 (fun _ =>
      Done (mkOptimizeResult x0 false
              "Maximum number of function evaluations has been exceeded." 1)).

(** A minimizer that evaluates at the starting point, then one unit further
    along every coordinate, and returns the better of the two. *)
Definition probe : Minimizer :=
  fun x0 bounds method opts =>
    let x1 := map (fun v => (v + 1)%float) x0 in
    Ask x0 (fun f0 =>
    Ask x1 (fun f1 =>
      Done (mkOptimizeResult (if (f1 <? f0)%float then x1 else x0) true
              "Optimization terminated successfully." 2))).

Fixpoint bisect (n : nat) (a fa b fb : float) (iterations : Z)
  : Routine float (float * RootResults) :=
  match n with
  | O => Done (b, mkRootResults b iterations (iterations + 2) true)
  | S n' =>
      let m := ((a + b) / 2)%float in
      Ask m (fun fm =>
        if (fa * fm <? 0)%float then bisect n' a fa m fm (iterations + 1)
        else bisect n' m fm b fb (iterations + 1))
  end.

(** A bracketed root-finder: it evaluates both endpoints, refuses an interval
    whose endpoint values have the same sign with [ValueError], and otherwise
    bisects [n] times. *)
Definition bisection (n : nat) : RootFinder :=
  fun a b opts =>
    Ask a (fun fa =>
    Ask b (fun fb =>
      if (0 <? fa * fb)%float then Fail ValueError
      else bisect n a fa b fb 0)).

Definition square_pow (v e : float) : float := (v * v)%float.

Definition unset : float := (0 / 0)%float.

(** Two free, unbounded parameters [x] (reference 0) and [y] (reference 1). *)
Definition store : Heap :=
  fun r =>
    match r with
    | O => mkParam "x" 3 1 unset unset false
    | _ => mkParam "y" 0 1 unset unset false
    end.

Definition both : ParamSet := mkParamSet [0; 1]%nat (fun _ => 1%float).

(** The same store with every parameter frozen. *)
Definition frozen_store : Heap :=
  fun r => with_frozen true (store r).

(** [(x - 3)^2 + y^2] on the factors. *)
Definition parabola : Objective :=
  fun l =>
    match l with
    | x :: y :: _ =>
        ((factor x - 3) * (factor x - 3) + factor y * factor y)%float
    | _ => unset
    end.

(** [x + y^2] on the factors: monotonic in [x]. *)
Definition slope : Objective :=
  fun l =>
    match l with
    | x :: y :: _ => (factor x + factor y * factor y)%float
    | _ => unset
    end.

Definition defaults : ConfidenceKwargs := mkConfidenceKwargs None None [].

(** The caller fixes the far endpoint at 10. *)
Definition far_at_10 : ConfidenceKwargs := mkConfidenceKwargs None (Some 10%float) [].

(** What [stall] returns from [store] and from [frozen_store]. *)
Definition stalled : OptimizeResult :=
  mkOptimizeResult [3%float; 0%float] false
    "Maximum number of function evaluations has been exceeded." 1.

Definition stalled_empty : OptimizeResult :=
  mkOptimizeResult [] false
    "Maximum number of function evaluations has been exceeded." 1.

(** A root-finder that only works on intervals ending at 10. *)
Definition bisection_to_10 (n : nat) : RootFinder :=
  fun a b opts =>
    if (b =? 10)%float then bisection n a b opts else Fail RuntimeError.

(** The dictionary of an outcome, empty when it raised. *)
Definition returned (o : Outcome dict) : dict :=
  match o with
  | Returns d => d
  | Raises _ => ∅
  end.

End Sample.

(** ** Relations between stores *)

(** Parameter [r] has in [h'] the value and the frozen flag it has in [h]. *)
Definition agrees (h h' : Heap) (r : ref) : Prop :=
  par_value (h' r) = par_value (h r) /\ par_frozen (h' r) = par_frozen (h r).

(** From [h] to [h'] nothing but values and frozen flags has changed, and
    those only at references in [S]. *)
Definition frame (S : ref -> Prop) (h h' : Heap) : Prop :=
  forall r,
    par_name (h' r) = par_name (h r)
    /\ par_scale (h' r) = par_scale (h r)
    /\ par_factor_min (h' r) = par_factor_min (h r)
    /\ par_factor_max (h' r) = par_factor_max (h r)
    /\ (~ S r -> h' r = h r).

(** From [h] to [h'] no frozen flag has changed. *)
Definition same_frozen (h h' : Heap) : Prop :=
  forall r, par_frozen (h' r) = par_frozen (h r).

(** From [h] to [h'] no frozen parameter has changed at all. *)
Definition frozen_kept (h h' : Heap) : Prop :=
  forall r, par_frozen (h r) = true -> h' r = h r.

(** The references a confidence call may write to. *)
Definition reachable (parameters : ParamSet) (parameter : ref) (r : ref) : Prop :=
  In r (pars parameters) \/ r = parameter.

(** * gammapy.spectrum.observation

    [SpectrumObservation] and [SpectrumObservationList].  The counts
    spectra, the effective area, the energy dispersion and astropy's
    quantities are classes of other modules: they appear as types with the
    attributes and methods this file calls. *)

(** Sequencing in a computation that touches no store. *)
Definition and_then {A B} (o : Outcome A) (k : A -> Outcome B) : Outcome B :=
  match o with
  | Returns a => k a
  | Raises e => Raises e
  end.

(** [l.index(x)] on a list of integers. *)
Fixpoint list_index (l : list Z) (x : Z) : Outcome nat :=
  match l with
  | [] => Raises ValueError
  | y :: l' =>
      if Z.eqb y x then Returns O
      else and_then (list_index l' x) (fun i => Returns (S i))
  end.

(** [l[i]] for an index counted from the front. *)
Definition getitem {A} (l : list A) (i : nat) : Outcome A :=
  match nth_error l i with
  | Some a => Returns a
  | None => Raises IndexError
  end.

(** [l[0]] and [l[-1]]. *)
Definition first_item {A} (l : list A) : Outcome A := getitem l 0.

Definition last_item {A} (l : list A) : Outcome A :=
  getitem l (length l - 1).

(** Python's [min] and [max] of a list: start from the first item and
    replace it by each later item that compares strictly below, for [max]
    strictly above, the current one; [ValueError] on the empty list. *)
Definition py_min (l : list float) : Outcome float :=
  match l with
  | [] => Raises ValueError
  | v :: l' => Returns (fold_left (fun m item => if (item <? m)%float then item else m) l' v)
  end.

Definition py_max (l : list float) : Outcome float :=
  match l with
  | [] => Raises ValueError
  | v :: l' => Returns (fold_left (fun m item => if (m <? item)%float then item else m) l' v)
  end.

Section SpectrumObservations.

Variable PHACountsSpectrum : Type.
Variable EffectiveAreaTable : Type.
Variable EnergyDispersion : Type.
Variable Quantity : Type.

(** Attributes of a counts spectrum: reading [obs_id], reading and writing
    the two thresholds, and [reset_thresholds()]. *)
Variable pha_obs_id : PHACountsSpectrum -> Z.
Variable pha_lo_threshold : PHACountsSpectrum -> Quantity.
Variable pha_hi_threshold : PHACountsSpectrum -> Quantity.
Variable pha_set_lo_threshold : Quantity -> PHACountsSpectrum -> PHACountsSpectrum.
Variable pha_set_hi_threshold : Quantity -> PHACountsSpectrum -> PHACountsSpectrum.
Variable pha_reset_thresholds : PHACountsSpectrum -> PHACountsSpectrum.

(** [q.to_value(unit)], and a number times a quantity. *)
Variable to_value : Quantity -> string -> float.
Variable scale_quantity : float -> Quantity -> Quantity.

(** [aeff.max_area], [aeff.energy.edges], [aeff.find_energy(area, emin)]
    and [edisp.get_bias_energy(bias, emin)], with [None] for an [emin] that
    is not given. *)
Variable aeff_max_area : EffectiveAreaTable -> Quantity.
Variable aeff_energy_edges : EffectiveAreaTable -> list Quantity.
Variable aeff_find_energy :
  EffectiveAreaTable -> Quantity -> option Quantity -> Outcome Quantity.
Variable edisp_get_bias_energy :
  EnergyDispersion -> float -> option Quantity -> Outcome Quantity.

(** Lines 76 to 80. *)
Record SpectrumObservation : Type := mkSpectrumObservation {
  on_vector : PHACountsSpectrum;
  aeff : option EffectiveAreaTable;
  off_vector : option PHACountsSpectrum;
  edisp : option EnergyDispersion
}.

(** The properties [obs_id], [lo_threshold] and [hi_threshold]. *)
Definition obs_id (self : SpectrumObservation) : Z :=
  pha_obs_id (on_vector self).

Definition lo_threshold (self : SpectrumObservation) : Quantity :=
  pha_lo_threshold (on_vector self).

Definition hi_threshold (self : SpectrumObservation) : Quantity :=
  pha_hi_threshold (on_vector self).

(** The setters of [lo_threshold] and [hi_threshold], and
    [reset_thresholds]: the on vector, and the off vector when there is one. *)
Definition set_lo_threshold (threshold : Quantity) (self : SpectrumObservation)
  : SpectrumObservation :=
  mkSpectrumObservation (pha_set_lo_threshold threshold (on_vector self))
    (aeff self)
    (option_map (pha_set_lo_threshold threshold) (off_vector self))
    (edisp self).

Definition set_hi_threshold (threshold : Quantity) (self : SpectrumObservation)
  : SpectrumObservation :=
  mkSpectrumObservation (pha_set_hi_threshold threshold (on_vector self))
    (aeff self)
    (option_map (pha_set_hi_threshold threshold) (off_vector self))
    (edisp self).

Definition reset_thresholds (self : SpectrumObservation) : SpectrumObservation :=
  mkSpectrumObservation (pha_reset_thresholds (on_vector self))
    (aeff self)
    (option_map pha_reset_thresholds (off_vector self))
    (edisp self).

(** Reading an attribute of [self.aeff] or [self.edisp] when that is
    [None], and a key that [kwargs] does not have. *)
Definition attribute_of {A} (o : option A) : Outcome A :=
  match o with
  | Some a => Returns a
  | None => Raises (OtherError "AttributeError")
  end.

Definition keyword (kwargs : gmap string float) (key : string) : Outcome float :=
  match kwargs !! key with
  | Some v => Returns v
  | None => Raises (OtherError "KeyError")
  end.

(** The property [e_true]. *)
Definition e_true (self : SpectrumObservation) : Outcome (list Quantity) :=
  and_then (attribute_of (aeff self)) (fun table =>
  Returns (aeff_energy_edges table)).

(** Lines 200 to 208: the low threshold of the chosen method. *)
Definition low_threshold (self : SpectrumObservation) (method_lo : string)
    (kwargs : gmap string float) : Outcome Quantity :=
  if String.eqb method_lo "area_max" then
    and_then (keyword kwargs "area_percent_lo") (fun percent =>
    and_then (attribute_of (aeff self)) (fun table =>
    let aeff_thres := scale_quantity (percent / 100)%float (aeff_max_area table) in
    aeff_find_energy table aeff_thres None))
  else if String.eqb method_lo "energy_bias" then
    and_then (attribute_of (edisp self)) (fun matrix =>
    and_then (keyword kwargs "bias_percent_lo") (fun percent =>
    edisp_get_bias_energy matrix (percent / 100)%float None))
  else if String.eqb method_lo "none" then
    and_then (e_true self) first_item
  else Raises ValueError.

(** Lines 215 to 227: the high threshold of the chosen method. *)
Definition high_threshold (self : SpectrumObservation) (method_hi : string)
    (kwargs : gmap string float) : Outcome Quantity :=
  if String.eqb method_hi "area_max" then
    and_then (keyword kwargs "area_percent_hi") (fun percent =>
    and_then (attribute_of (aeff self)) (fun table =>
    let aeff_thres := scale_quantity (percent / 100)%float (aeff_max_area table) in
    and_then (and_then (e_true self) last_item) (fun e_min =>
    aeff_find_energy table aeff_thres (Some e_min))))
  else if String.eqb method_hi "energy_bias" then
    and_then (and_then (e_true self) last_item) (fun e_min =>
    and_then (attribute_of (edisp self)) (fun matrix =>
    and_then (keyword kwargs "bias_percent_hi") (fun percent =>
    edisp_get_bias_energy matrix (percent / 100)%float (Some e_min))))
  else if String.eqb method_hi "none" then
    and_then (e_true self) last_item
  else Raises ValueError.

(** [compute_energy_threshold]: the outcome, and the observation as the call
    leaves it. *)
Definition compute_energy_threshold (self : SpectrumObservation)
    (method_lo method_hi : string) (reset : bool) (kwargs : gmap string float)
  : Outcome unit * SpectrumObservation :=
  let self := if reset then reset_thresholds self else self in
  match low_threshold self method_lo kwargs with
  | Raises e => (Raises e, self)
  | Returns thres_lo =>
      let self := set_lo_threshold thres_lo self in
      match high_threshold self method_hi kwargs with
      | Raises e => (Raises e, self)
      | Returns thres_hi => (Returns tt, set_hi_threshold thres_hi self)
      end
  end.

(** [SpectrumObservationList.obs] *)
Definition SpectrumObservationList_obs (self : list SpectrumObservation)
    (id : Z) : Outcome SpectrumObservation :=
  let obs_id_list := map obs_id self in
  and_then (list_index obs_id_list id) (fun idx => getitem self idx).

(** [SpectrumObservationList.safe_range]: the two numbers and the unit of
    the returned quantity. *)
Definition SpectrumObservationList_safe_range (self : list SpectrumObservation)
    (method : string) : Outcome (list float * string) :=
  let unit := "TeV" in
  let lo := map (fun obs => to_value (lo_threshold obs) unit) self in
  let hi := map (fun obs => to_value (hi_threshold obs) unit) self in
  if String.eqb method "inclusive" then
    and_then (py_min lo) (fun range_lo =>
    and_then (py_max hi) (fun range_hi =>
    Returns ([range_lo; range_hi], unit)))
  else if String.eqb method "exclusive" then
    and_then (py_max lo) (fun range_lo =>
    and_then (py_min hi) (fun range_hi =>
    Returns ([range_lo; range_hi], unit)))
  else Raises ValueError.

End SpectrumObservations.

Arguments mkSpectrumObservation {PHACountsSpectrum EffectiveAreaTable EnergyDispersion}.
Arguments on_vector {PHACountsSpectrum EffectiveAreaTable EnergyDispersion}.
Arguments aeff {PHACountsSpectrum EffectiveAreaTable EnergyDispersion}.
Arguments off_vector {PHACountsSpectrum EffectiveAreaTable EnergyDispersion}.
Arguments edisp {PHACountsSpectrum EffectiveAreaTable EnergyDispersion}.
Arguments obs_id {PHACountsSpectrum EffectiveAreaTable EnergyDispersion}.
Arguments lo_threshold {PHACountsSpectrum EffectiveAreaTable EnergyDispersion Quantity}.
Arguments hi_threshold {PHACountsSpectrum EffectiveAreaTable EnergyDispersion Quantity}.
Arguments set_lo_threshold {PHACountsSpectrum EffectiveAreaTable EnergyDispersion Quantity}.
Arguments set_hi_threshold {PHACountsSpectrum EffectiveAreaTable EnergyDispersion Quantity}.
Arguments reset_thresholds {PHACountsSpectrum EffectiveAreaTable EnergyDispersion}.
Arguments e_true {PHACountsSpectrum EffectiveAreaTable EnergyDispersion Quantity}.
Arguments low_threshold {PHACountsSpectrum EffectiveAreaTable EnergyDispersion Quantity}.
Arguments high_threshold {PHACountsSpectrum EffectiveAreaTable EnergyDispersion Quantity}.
Arguments compute_energy_threshold {PHACountsSpectrum EffectiveAreaTable EnergyDispersion Quantity}.
Arguments SpectrumObservationList_obs {PHACountsSpectrum EffectiveAreaTable EnergyDispersion}.
Arguments SpectrumObservationList_safe_range {PHACountsSpectrum EffectiveAreaTable EnergyDispersion Quantity}.

(** ** Concrete observations *)

Module SampleObservation.

(** A counts spectrum reduced to its identifier and its two thresholds, in
    TeV; an effective area reduced to its energy edges and its largest area;
    quantities are plain numbers. *)
Record Spectrum : Type := mkSpectrum {
  identifier : Z;
  low : float;
  high : float
}.

Record Area : Type := mkArea {
  edges : list float;
  largest : float
}.

Definition set_low (threshold : float) (s : Spectrum) : Spectrum :=
  mkSpectrum (identifier s) threshold (high s).

Definition set_high (threshold : float) (s : Spectrum) : Spectrum :=
  mkSpectrum (identifier s) (low s) threshold.

Definition reset (s : Spectrum) : Spectrum :=
  mkSpectrum (identifier s) 0 1000.

Definition in_unit (q : float) (unit : string) : float := q.

Definition times (v q : float) : float := (v * q)%float.

(** The energy at which the area is reached: here simply the first edge, or
    [emin] when it is given. *)
Definition find_energy (table : Area) (area : float) (emin : option float)
  : Outcome float :=
  match emin with
  | Some e => Returns e
  | None => first_item (edges table)
  end.

Definition bias_energy (matrix : unit) (bias : float) (emin : option float)
  : Outcome float :=
  Returns 1%float.

Definition Observation : Type := SpectrumObservation Spectrum Area unit.

Definition table : Area := mkArea [0.5%float; 1%float; 50%float] 100.

Definition first : Observation :=
  mkSpectrumObservation (mkSpectrum 23523 1 30) (Some table)
    (Some (mkSpectrum 23523 1 30)) None.

Definition second : Observation :=
  mkSpectrumObservation (mkSpectrum 23526 2 20) (Some table) None None.

Definition third : Observation :=
  mkSpectrumObservation (mkSpectrum 23523 4 40) None None None.

Definition observations : list Observation := [first; second; third].

(** The methods of the list and of an observation on these types. *)
Definition lookup : list Observation -> Z -> Outcome Observation :=
  SpectrumObservationList_obs identifier.

Definition safe_range : list Observation -> string -> Outcome (list float * string) :=
  SpectrumObservationList_safe_range low high in_unit.

Definition compute
  : Observation -> string -> string -> bool -> gmap string float ->
    Outcome unit * Observation :=
  compute_energy_threshold set_low set_high reset times largest edges
    find_energy bias_energy.

End SampleObservation.

(** ** From observations to datasets *)

Section SpectrumDatasets.

Variable PHACountsSpectrum : Type.
Variable EffectiveAreaTable : Type.
Variable EnergyDispersion : Type.
Variable Quantity : Type.
Variable Model : Type.

(** The dataset classes of the module [.dataset] and [Datasets] of
    [..utils.fitting.datasets]: their constructors, the two attribute
    assignments and the one attribute read that this file makes.  Any of
    them may raise. *)
Variable Dataset : Type.
Variable DatasetList : Type.
Variable SpectrumDatasetOnOff :
  PHACountsSpectrum -> option EffectiveAreaTable -> PHACountsSpectrum ->
  option EnergyDispersion -> Quantity -> list bool -> Outcome Dataset.
Variable SpectrumDataset :
  PHACountsSpectrum -> option EffectiveAreaTable ->
  option EnergyDispersion -> Quantity -> list bool -> Outcome Dataset.
Variable dataset_clear_edisp : Dataset -> Outcome Dataset.
Variable dataset_set_model : option Model -> Dataset -> Outcome Dataset.
Variable dataset_counts_on_edges : Dataset -> Outcome (list Quantity).
Variable Datasets : list Dataset -> option (list bool) -> Outcome DatasetList.

(** [on_vector.quality], [on_vector.livetime], and [>=] and [<=] between
    quantities. *)
Variable pha_quality : PHACountsSpectrum -> list Z.
Variable pha_livetime : PHACountsSpectrum -> Quantity.
Variable quantity_ge : Quantity -> Quantity -> bool.
Variable quantity_le : Quantity -> Quantity -> bool.

Local Abbreviation Obs :=
  (SpectrumObservation PHACountsSpectrum EffectiveAreaTable EnergyDispersion).

(** [SpectrumObservation.to_spectrum_dataset] *)
Definition to_spectrum_dataset (self : Obs) : Outcome Dataset :=
  let quality := pha_quality (on_vector self) in
  let mask := map (fun q => Z.eqb q 0) quality in
  match off_vector self with
  | Some off =>
      SpectrumDatasetOnOff (on_vector self) (aeff self) off (edisp self)
        (pha_livetime (on_vector self)) mask
  | None =>
      SpectrumDataset (on_vector self) (aeff self) (edisp self)
        (pha_livetime (on_vector self)) mask
  end.

(** Lines 715 to 718: the body of the loop for one observation. *)
Definition prepare_dataset (model : option Model) (forward_folded : bool)
    (obs : Obs) : Outcome Dataset :=
  and_then (to_spectrum_dataset obs) (fun dataset =>
  and_then (if forward_folded then Returns dataset
            else dataset_clear_edisp dataset) (fun dataset =>
  dataset_set_model model dataset)).

(** Lines 712 to 719: the loop, from the list built so far and the local
    variable [dataset], unbound before the first round. *)
Fixpoint datasets_loop (model : option Model) (forward_folded : bool)
    (self : list Obs) (datasets : list Dataset) (dataset : option Dataset)
  : Outcome (list Dataset * option Dataset) :=
  match self with
  | [] => Returns (datasets, dataset)
  | obs :: rest =>
      and_then (prepare_dataset model forward_folded obs) (fun dataset =>
      datasets_loop model forward_folded rest (datasets ++ [dataset])%list
        (Some dataset))
  end.

(** Line 723: the mask of the bins that lie within the fit range. *)
Definition fit_range_mask (energy : list Quantity) (fit_range : Quantity * Quantity)
  : list bool :=
  map (fun bin => quantity_ge (fst bin) (fst fit_range)
                  && quantity_le (snd bin) (snd fit_range))
      (combine (removelast energy) (tl energy)).

(** [SpectrumObservationList.to_spectrum_datasets] *)
Definition to_spectrum_datasets (self : list Obs) (model : option Model)
    (fit_range : option (Quantity * Quantity)) (forward_folded : bool)
  : Outcome DatasetList :=
  and_then (datasets_loop model forward_folded self [] None) (fun state =>
  let '(datasets, dataset) := state in
  match fit_range with
  | Some fit_range =>
      match dataset with
      | None => Raises UnboundLocalError
      | Some dataset =>
          and_then (dataset_counts_on_edges dataset) (fun energy =>
          Datasets datasets (Some (fit_range_mask energy fit_range)))
      end
  | None => Datasets datasets None
  end).

(** All the datasets of a list, one after the other, stopping at the first
    error. *)
Fixpoint prepare_all (model : option Model) (forward_folded : bool)
    (self : list Obs) : Outcome (list Dataset) :=
  match self with
  | [] => Returns []
  | obs :: rest =>
      and_then (prepare_dataset model forward_folded obs) (fun dataset =>
      and_then (prepare_all model forward_folded rest) (fun datasets =>
      Returns (dataset :: datasets)))
  end.

End SpectrumDatasets.

Arguments to_spectrum_dataset {PHACountsSpectrum EffectiveAreaTable EnergyDispersion Quantity Dataset}.
Arguments prepare_dataset {PHACountsSpectrum EffectiveAreaTable EnergyDispersion Quantity Model Dataset}.
Arguments datasets_loop {PHACountsSpectrum EffectiveAreaTable EnergyDispersion Quantity Model Dataset}.
Arguments fit_range_mask {Quantity}.
Arguments to_spectrum_datasets {PHACountsSpectrum EffectiveAreaTable EnergyDispersion Quantity Model Dataset DatasetList}.
Arguments prepare_all {PHACountsSpectrum EffectiveAreaTable EnergyDispersion Quantity Model Dataset}.

(** ** Concrete datasets *)

Module SampleDataset.

(** A dataset reduced to the identifier of its observation, the edges of its
    energy axis and whether it has a model. *)
Record Data : Type := mkData {
  of_observation : Z;
  axis : list float;
  has_model : bool
}.

Definition on_off (on : SampleObservation.Spectrum)
    (area : option SampleObservation.Area) (off : SampleObservation.Spectrum)
    (matrix : option unit) (livetime : float) (mask : list bool)
  : Outcome Data :=
  Returns (mkData (SampleObservation.identifier on)
             [SampleObservation.low on; SampleObservation.high on] false).

Definition on_only (on : SampleObservation.Spectrum)
    (area : option SampleObservation.Area)
    (matrix : option unit) (livetime : float) (mask : list bool)
  : Outcome Data :=
  Returns (mkData (SampleObservation.identifier on)
             [SampleObservation.low on; SampleObservation.high on] false).

Definition clear_edisp (d : Data) : Outcome Data := Returns d.

Definition set_model (model : option unit) (d : Data) : Outcome Data :=
  Returns (mkData (of_observation d) (axis d) true).

Definition counts_on_edges (d : Data) : Outcome (list float) :=
  Returns (axis d).

Definition collection (datasets : list Data) (mask : option (list bool))
  : Outcome (list Data * option (list bool)) :=
  Returns (datasets, mask).

Definition quality (s : SampleObservation.Spectrum) : list Z := [0%Z].

Definition livetime (s : SampleObservation.Spectrum) : float := 1800.

Definition ge (x y : float) : bool := (y <=? x)%float.

Definition le (x y : float) : bool := (x <=? y)%float.

Definition prepare : SampleObservation.Observation -> Outcome Data :=
  prepare_dataset on_off on_only clear_edisp set_model quality livetime
    None true.

Definition convert (self : list SampleObservation.Observation)
    (fit_range : option (float * float))
  : Outcome (list Data * option (list bool)) :=
  to_spectrum_datasets on_off on_only clear_edisp set_model counts_on_edges
    collection quality livetime ge le self None fit_range true.

End SampleDataset.

(** * Properties *)

(** ** The store *)

Lemma update_same (h : Heap) (r : ref) (p : Param) : update h r p r = p.
Proof. unfold update. now rewrite Nat.eqb_refl. Qed.

Lemma update_other (h : Heap) (r r' : ref) (p : Param) :
  r' <> r -> update h r p r' = h r'.
Proof.
  intros Hne. unfold update.
  destruct (Nat.eqb_spec r' r) as [Heq | _]; [contradiction | reflexivity].
Qed.

Section PointOptimizer.

Variable minimize : Minimizer.

(** What [optimize_scipy] does with the outcome of [minimize]. *)
Lemma optimize_scipy_unfold parameters function kwargs h :
  optimize_scipy minimize parameters function kwargs h =
  match run_routine (Likelihood_fcn function parameters)
          (minimize (initial_factors parameters h) (factor_bounds parameters h)
             (default "Nelder-Mead" (kw_method kwargs)) (kw_minimize kwargs)) h
  with
  | (Returns result, h') =>
      (Returns (res_x result, optimize_info result, None), h')
  | (Raises e, h') => (Raises e, h')
  end.
Proof.
  unfold optimize_scipy, bind, get_heap, ret.
  destruct (run_routine _ _ h) as [[result | e] h']; reflexivity.
Qed.

(** C7: when the external minimizer stops without converging,
    [optimize_scipy] does not raise: it returns the final factors, and an
    [info] dictionary whose [success] is [False] and whose [message] and
    [nfev] are the minimizer's own. *)
Theorem optimize_scipy_reports_non_convergence
    parameters function kwargs h result h' :
  run_routine (Likelihood_fcn function parameters)
    (minimize (initial_factors parameters h) (factor_bounds parameters h)
       (default "Nelder-Mead" (kw_method kwargs)) (kw_minimize kwargs)) h
    = (Returns result, h') ->
  res_success result = false ->
  exists info : dict,
    optimize_scipy minimize parameters function kwargs h
      = (Returns (res_x result, info, None), h')
    /\ info !! "success" = Some (VBool false)
    /\ info !! "message" = Some (VStr (res_message result))
    /\ info !! "nfev" = Some (VInt (res_nfev result)).
Proof.
  intros Hrun Hfail.
  exists (optimize_info result).
  rewrite optimize_scipy_unfold, Hrun.
  unfold optimize_info. rewrite Hfail.
  repeat split; reflexivity.
Qed.

(** C6, as the code has it: [optimize_scipy] makes no check of its own.
    With every parameter frozen it hands the external minimizer an empty
    starting vector and an empty list of bounds, and what the minimizer does
    decides the outcome: its result is returned, its error is raised. *)
Theorem optimize_scipy_all_frozen parameters function kwargs h :
  free_parameters parameters h = [] ->
  optimize_scipy minimize parameters function kwargs h =
  match run_routine (Likelihood_fcn function parameters)
          (minimize [] [] (default "Nelder-Mead" (kw_method kwargs))
             (kw_minimize kwargs)) h
  with
  | (Returns result, h') =>
      (Returns (res_x result, optimize_info result, None), h')
  | (Raises e, h') => (Raises e, h')
  end.
Proof.
  intros Hfree. rewrite optimize_scipy_unfold.
  unfold initial_factors, factor_bounds. rewrite Hfree. reflexivity.
Qed.

End PointOptimizer.

(** C9: [covariance_scipy] raises [NotImplementedError] whatever it is
    given, and leaves the store alone; there is no input on which it returns
    a value. *)
Theorem covariance_scipy_always_raises parameters function h :
  covariance_scipy parameters function h = (Raises NotImplementedError, h).
Proof. reflexivity. Qed.

Lemma optimize_scipy_reports_non_convergence_witness :
  res_success Sample.stalled = false /\
  exists info : dict,
    optimize_scipy Sample.stall Sample.both Sample.parabola no_kwargs Sample.store
      = (Returns (res_x Sample.stalled, info, None),
         snd (optimize_scipy Sample.stall Sample.both Sample.parabola
                no_kwargs Sample.store))
    /\ info !! "success" = Some (VBool false)
    /\ info !! "message" = Some (VStr (res_message Sample.stalled))
    /\ info !! "nfev" = Some (VInt (res_nfev Sample.stalled)).
Proof.
  split; [reflexivity |].
  exact (optimize_scipy_reports_non_convergence Sample.stall Sample.both
           Sample.parabola no_kwargs Sample.store Sample.stalled
           (snd (optimize_scipy Sample.stall Sample.both Sample.parabola
                   no_kwargs Sample.store))
           eq_refl eq_refl).
Defined.

(** C6 as stated fails: every parameter is frozen, yet [optimize_scipy]
    returns a result, the one its minimizer produced from the empty vector. *)
Lemma optimize_scipy_all_frozen_returns :
  free_parameters Sample.both Sample.frozen_store = [] /\
  fst (optimize_scipy Sample.stall Sample.both Sample.parabola no_kwargs
         Sample.frozen_store)
    = Returns ([], optimize_info Sample.stalled_empty, None).
Proof. split; reflexivity. Qed.

Lemma optimize_scipy_all_frozen_witness :
  free_parameters Sample.both Sample.frozen_store = [] /\
  optimize_scipy Sample.stall Sample.both Sample.parabola no_kwargs
    Sample.frozen_store =
  match run_routine (Likelihood_fcn Sample.parabola Sample.both)
          (Sample.stall [] [] "Nelder-Mead" []) Sample.frozen_store
  with
  | (Returns result, h') =>
      (Returns (res_x result, optimize_info result, None), h')
  | (Raises e, h') => (Raises e, h')
  end.
Proof.
  split; [reflexivity |].
  exact (optimize_scipy_all_frozen Sample.stall Sample.both Sample.parabola
           no_kwargs Sample.frozen_store eq_refl).
Defined.

(** ** One bracket search *)

Lemma set_frozen_at (r : ref) (b : bool) (h : Heap) :
  set_frozen r b h r = with_frozen b (h r).
Proof. unfold set_frozen. apply update_same. Qed.

Section Bracketing.

Variable minimize : Minimizer.
Variable float_pow : float -> float -> float.

(** The constructor reads the objective first and freezes the target after. *)
Lemma TSDifference_init_unfold function parameters parameter ts h :
  TSDifference_init function parameters parameter ts h =
  (Returns (mkTSDifference (function (view parameters h)) parameters function
              parameter ts),
   set_frozen parameter true h).
Proof. reflexivity. Qed.

Lemma _confidence_scipy_brentq_unfold brentq
    parameters parameter function sigma upper kwargs h :
  _confidence_scipy_brentq minimize brentq float_pow parameters parameter
    function sigma upper kwargs h =
  bracket_search minimize brentq
    (mkTSDifference (function (view parameters h)) parameters function
       parameter (float_pow sigma 2))
    (fst (search_interval parameters parameter upper kwargs
            (set_frozen parameter true h)))
    (snd (search_interval parameters parameter upper kwargs
            (set_frozen parameter true h)))
    (kw_brentq kwargs) upper (set_frozen parameter true h).
Proof.
  unfold _confidence_scipy_brentq, bind, get_heap.
  rewrite TSDifference_init_unfold.
  destruct (search_interval _ _ _ _ _) as [a b]. reflexivity.
Qed.

Lemma search_interval_a parameters parameter upper kwargs h a0 :
  kw_a kwargs = Some a0 ->
  fst (search_interval parameters parameter upper kwargs h) = a0.
Proof. intros Ha. unfold search_interval. rewrite Ha. reflexivity. Qed.

Lemma search_interval_b parameters parameter upper kwargs h b0 :
  kw_b kwargs = Some b0 ->
  snd (search_interval parameters parameter upper kwargs h) = b0.
Proof. intros Hb. unfold search_interval. rewrite Hb. reflexivity. Qed.

(** C5: when the caller gives no [b], the far endpoint handed to the
    root-finder is the configured bound in the search direction if that is
    set, and otherwise the current factor plus (upper search) or minus (lower
    search) [100 * error / scale]. *)
Theorem far_endpoint_without_override brentq
    parameters parameter function sigma (upper : bool) kwargs (h : Heap) :
  kw_b kwargs = None ->
  let p := h parameter in
  let excursion := (100 * error parameters parameter / par_scale p)%float in
  let bound := if upper then par_factor_max p else par_factor_min p in
  let b :=
    if is_nan bound then
      if upper then (factor p + excursion)%float
      else (factor p - excursion)%float
    else bound in
  _confidence_scipy_brentq minimize brentq float_pow parameters parameter
    function sigma upper kwargs h =
  bracket_search minimize brentq
    (mkTSDifference (function (view parameters h)) parameters function
       parameter (float_pow sigma 2))
    (default (factor p) (kw_a kwargs)) b (kw_brentq kwargs) upper
    (set_frozen parameter true h).
Proof.
  intros Hb p excursion bound b.
  rewrite _confidence_scipy_brentq_unfold.
  unfold search_interval. rewrite Hb, set_frozen_at. simpl.
  reflexivity.
Qed.

(** C10: the caller's [a] and [b] reach both searches unchanged.
    (1) [confidence_scipy] is the lower search followed by the upper search,
    each in its own scope, and each one run of the root-finder, with the
    caller's remaining options, on the interval from [a] to [b], where [a]
    is the caller's when given and the target's factor otherwise, and [b] is
    the caller's when given and the bound of the search direction, or its
    substitute, otherwise.  (2) With [a] given, both searches start at that
    [a].  (3) With [b] given, both searches end at that [b]: a single
    override fixes the far endpoint of both directions.  (4) The whole call
    depends on the root-finder only through the intervals that agree with
    the overrides: two root-finders that behave alike on those give the same
    outcome and the same store. *)
Theorem overrides_reach_both_searches (brentq1 brentq2 : RootFinder)
    parameters parameter function sigma kwargs :
  let near (h : Heap) : float := factor (h parameter) in
  let far (upper : bool) (h : Heap) : float :=
    let bound :=
      if upper then par_factor_max (h parameter)
      else par_factor_min (h parameter) in
    if is_nan bound then
      if upper then
        (factor (h parameter)
           + 100 * error parameters parameter / par_scale (h parameter))%float
      else
        (factor (h parameter)
           - 100 * error parameters parameter / par_scale (h parameter))%float
    else bound in
  let search (a b : bool -> Heap -> float) (upper : bool) : Py dict :=
    fun h =>
      let g :=
        mkTSDifference (function (view parameters h)) parameters function
          parameter (float_pow sigma 2) in
      match run_routine (TSDifference_fcn minimize g)
              (brentq1 (a upper h) (b upper h) (kw_brentq kwargs))
              (set_frozen parameter true h)
      with
      | (Returns result, h') =>
          confidence_dict g (a upper h) upper (Some result)
            "Confidence terminated successfully." true h'
      | (Raises ValueError, h') => (Raises UnboundLocalError, h')
      | (Raises e, h') => (Raises e, h')
      end in
  let searches (a b : bool -> Heap -> float) : Py dict :=
    do result <~ restore_values parameters (search a b false);
    do result_errp <~ restore_values parameters (search a b true);
    ret (dict_update result result_errp) in
  (forall h,
      confidence_scipy minimize brentq1 float_pow parameters parameter
        function sigma kwargs h =
      searches (fun _ h0 => default (near h0) (kw_a kwargs))
        (fun upper h0 => default (far upper h0) (kw_b kwargs)) h)
  /\ (forall a0 : float,
         kw_a kwargs = Some a0 ->
         forall h,
           confidence_scipy minimize brentq1 float_pow parameters parameter
             function sigma kwargs h =
           searches (fun _ _ => a0)
             (fun upper h0 => default (far upper h0) (kw_b kwargs)) h)
  /\ (forall b0 : float,
         kw_b kwargs = Some b0 ->
         forall h,
           confidence_scipy minimize brentq1 float_pow parameters parameter
             function sigma kwargs h =
           searches (fun _ h0 => default (near h0) (kw_a kwargs))
             (fun _ _ => b0) h)
  /\ ((forall a b : float,
          (forall a0, kw_a kwargs = Some a0 -> a = a0) ->
          (forall b0, kw_b kwargs = Some b0 -> b = b0) ->
          brentq1 a b (kw_brentq kwargs) = brentq2 a b (kw_brentq kwargs)) ->
      forall h,
        confidence_scipy minimize brentq1 float_pow parameters parameter
          function sigma kwargs h =
        confidence_scipy minimize brentq2 float_pow parameters parameter
          function sigma kwargs h).
Proof.
  intros near far search searches.
  assert (Hgeneral : forall h,
    confidence_scipy minimize brentq1 float_pow parameters parameter
      function sigma kwargs h =
    searches (fun _ h0 => default (near h0) (kw_a kwargs))
      (fun upper h0 => default (far upper h0) (kw_b kwargs)) h).
  { intros h.
    assert (Hsearch : forall upper,
      _confidence_scipy_brentq minimize brentq1 float_pow parameters parameter
        function sigma upper kwargs =
      search (fun _ h0 => default (near h0) (kw_a kwargs))
        (fun upper0 h0 => default (far upper0 h0) (kw_b kwargs)) upper).
    { intros upper. apply functional_extensionality. intros h0.
      rewrite _confidence_scipy_brentq_unfold.
      assert (Ha : fst (search_interval parameters parameter upper kwargs
                          (set_frozen parameter true h0))
                   = default (near h0) (kw_a kwargs)).
      { unfold search_interval. simpl. now rewrite set_frozen_at. }
      assert (Hb : snd (search_interval parameters parameter upper kwargs
                          (set_frozen parameter true h0))
                   = default (far upper h0) (kw_b kwargs)).
      { unfold search_interval. simpl. now rewrite set_frozen_at. }
      rewrite Ha, Hb. subst search. simpl.
      unfold bracket_search, bind, try_brentq.
      destruct (run_routine _ _ (set_frozen parameter true h0))
        as [[result | e] h']; [reflexivity |].
      destruct e; reflexivity. }
    unfold confidence_scipy. rewrite !Hsearch. reflexivity. }
  split; [exact Hgeneral |]. split; [| split].
  - intros a0 Ha h. rewrite Hgeneral. rewrite Ha. reflexivity.
  - intros b0 Hb h. rewrite Hgeneral. rewrite Hb. reflexivity.
  - intros Hagree h.
    assert (Hsearch : forall upper h0,
      _confidence_scipy_brentq minimize brentq1 float_pow parameters parameter
        function sigma upper kwargs h0 =
      _confidence_scipy_brentq minimize brentq2 float_pow parameters parameter
        function sigma upper kwargs h0).
    { intros upper h0. rewrite !_confidence_scipy_brentq_unfold.
      unfold bracket_search, bind, try_brentq.
      rewrite Hagree; [reflexivity | |].
      - intros a0 Ha. now apply search_interval_a.
      - intros b0 Hb. now apply search_interval_b. }
    unfold confidence_scipy, bind, restore_values.
    rewrite Hsearch.
    destruct (_confidence_scipy_brentq minimize brentq2 _ _ _ _ _ false _ h)
      as [[result | e] h1]; [| reflexivity].
    rewrite Hsearch. reflexivity.
Qed.

End Bracketing.

Lemma far_endpoint_without_override_witness :
  kw_b Sample.defaults = None /\
  _confidence_scipy_brentq Sample.evaluate_once (Sample.bisection 30)
    Sample.square_pow Sample.both 0%nat Sample.parabola 1 true
    Sample.defaults Sample.store =
  bracket_search Sample.evaluate_once (Sample.bisection 30)
    (mkTSDifference 0 Sample.both Sample.parabola 0%nat 1)
    3 103 [] true (set_frozen 0%nat true Sample.store).
Proof.
  split; [reflexivity |].
  exact (far_endpoint_without_override Sample.evaluate_once Sample.square_pow
           (Sample.bisection 30) Sample.both 0%nat Sample.parabola 1%float
           true Sample.defaults Sample.store eq_refl).
Defined.

Lemma overrides_reach_both_searches_witness :
  kw_b Sample.far_at_10 = Some 10%float
  /\ (let search (upper : bool) : Py dict :=
        fun h =>
          let g :=
            mkTSDifference (Sample.parabola (view Sample.both h)) Sample.both
              Sample.parabola 0%nat (Sample.square_pow 1%float 2%float) in
          let a := default (factor (h 0%nat)) (kw_a Sample.far_at_10) in
          match run_routine (TSDifference_fcn Sample.evaluate_once g)
                  (Sample.bisection 8 a 10%float
                     (kw_brentq Sample.far_at_10))
                  (set_frozen 0%nat true h)
          with
          | (Returns result, h') =>
              confidence_dict g a upper (Some result)
                "Confidence terminated successfully." true h'
          | (Raises ValueError, h') => (Raises UnboundLocalError, h')
          | (Raises e, h') => (Raises e, h')
          end in
      confidence_scipy Sample.evaluate_once (Sample.bisection 8)
        Sample.square_pow Sample.both 0%nat Sample.parabola 1%float
        Sample.far_at_10 Sample.store =
      (do result <~ restore_values Sample.both (search false);
       do result_errp <~ restore_values Sample.both (search true);
       ret (dict_update result result_errp)) Sample.store)
  /\ confidence_scipy Sample.evaluate_once (Sample.bisection 8)
       Sample.square_pow Sample.both 0%nat Sample.parabola 1 Sample.far_at_10
       Sample.store =
     confidence_scipy Sample.evaluate_once (Sample.bisection_to_10 8)
       Sample.square_pow Sample.both 0%nat Sample.parabola 1 Sample.far_at_10
       Sample.store.
Proof.
  split; [reflexivity |]. split.
  - exact (proj1 (proj2 (proj2
             (overrides_reach_both_searches Sample.evaluate_once
                Sample.square_pow (Sample.bisection 8)
                (Sample.bisection_to_10 8) Sample.both 0%nat
                Sample.parabola 1%float Sample.far_at_10)))
             10%float eq_refl Sample.store).
  - apply (proj2 (proj2 (proj2
             (overrides_reach_both_searches Sample.evaluate_once
                Sample.square_pow (Sample.bisection 8)
                (Sample.bisection_to_10 8) Sample.both 0%nat
                Sample.parabola 1%float Sample.far_at_10)))).
    intros a b _ Hb. rewrite (Hb 10%float eq_refl). reflexivity.
Defined.

(** ** Scoped restoration *)

Lemma param_eq (p q : Param) :
  par_name p = par_name q -> par_value p = par_value q ->
  par_scale p = par_scale q -> par_factor_min p = par_factor_min q ->
  par_factor_max p = par_factor_max q -> par_frozen p = par_frozen q ->
  p = q.
Proof. destruct p, q; simpl; intros; subst; reflexivity. Qed.

Section Restore.

(** The store [h0] the snapshot was taken in. *)
Variable h0 : Heap.

Lemma restore_keeps (l : list ref) :
  forall h r, agrees h0 h r -> agrees h0 (restore (snapshot_of h0 l) h) r.
Proof.
  induction l as [| r0 l IH]; intros h r Hr; [exact Hr |].
  simpl. apply IH. unfold agrees.
  destruct (Nat.eq_dec r r0) as [-> | Hne].
  - rewrite update_same. split; reflexivity.
  - rewrite update_other by exact Hne. exact Hr.
Qed.

Lemma restore_sets (l : list ref) :
  forall h r, In r l -> agrees h0 (restore (snapshot_of h0 l) h) r.
Proof.
  induction l as [| r0 l IH]; intros h r Hin; [destruct Hin |].
  destruct Hin as [-> | Hin].
  - simpl. apply restore_keeps. unfold agrees.
    rewrite update_same. split; reflexivity.
  - simpl. apply IH, Hin.
Qed.

Lemma restore_outside (l : list ref) :
  forall h r, ~ In r l -> restore (snapshot_of h0 l) h r = h r.
Proof.
  induction l as [| r0 l IH]; intros h r Hout; [reflexivity |].
  simpl. rewrite IH.
  - apply update_other. intros ->. apply Hout. now left.
  - intros Hin. apply Hout. now right.
Qed.

Lemma restore_static (l : list ref) :
  forall h r,
    par_name (restore (snapshot_of h0 l) h r) = par_name (h r)
    /\ par_scale (restore (snapshot_of h0 l) h r) = par_scale (h r)
    /\ par_factor_min (restore (snapshot_of h0 l) h r) = par_factor_min (h r)
    /\ par_factor_max (restore (snapshot_of h0 l) h r) = par_factor_max (h r).
Proof.
  induction l as [| r0 l IH]; intros h r; [repeat split |].
  change (restore (snapshot_of h0 (r0 :: l)) h)
    with (restore (snapshot_of h0 l)
            (restore_one h (r0, par_value (h0 r0), par_frozen (h0 r0)))).
  destruct (IH (restore_one h (r0, par_value (h0 r0), par_frozen (h0 r0))) r)
    as (Hn & Hs & Hmin & Hmax).
  rewrite Hn, Hs, Hmin, Hmax. unfold restore_one.
  destruct (Nat.eq_dec r r0) as [-> | Hne].
  - rewrite update_same. repeat split.
  - rewrite update_other by exact Hne. repeat split.
Qed.

End Restore.

(** Whatever the body does and however it ends, leaving the scope puts the
    value and the frozen flag of every parameter of the set back. *)
Lemma restore_values_agrees {A} parameters (body : Py A) h r :
  In r (pars parameters) ->
  agrees h (snd (restore_values parameters body h)) r.
Proof.
  intros Hin. unfold restore_values.
  destruct (body h) as [o h']. simpl.
  apply restore_sets, Hin.
Qed.

Lemma agrees_trans h1 h2 h3 r : agrees h1 h2 r -> agrees h2 h3 r -> agrees h1 h3 r.
Proof. unfold agrees. intros [Hv Hf] [Hv' Hf']. split; congruence. Qed.

Section Confidence.

Variable minimize : Minimizer.
Variable brentq : RootFinder.
Variable float_pow : float -> float -> float.

(** C2: after [confidence_scipy], whether it returned or raised, every
    parameter of the set has the value and the frozen flag it had before the
    call; the target, frozen during each search, is one of them. *)
Theorem confidence_scipy_restores parameters parameter function sigma kwargs h r :
  In r (pars parameters) ->
  par_value (snd (confidence_scipy minimize brentq float_pow parameters
                    parameter function sigma kwargs h) r) = par_value (h r)
  /\ par_frozen (snd (confidence_scipy minimize brentq float_pow parameters
                        parameter function sigma kwargs h) r) = par_frozen (h r).
Proof.
  intros Hin. unfold confidence_scipy, bind.
  set (lower := restore_values parameters
                  (_confidence_scipy_brentq minimize brentq float_pow parameters
                     parameter function sigma false kwargs)).
  set (upper := restore_values parameters
                  (_confidence_scipy_brentq minimize brentq float_pow parameters
                     parameter function sigma true kwargs)).
  pose proof (restore_values_agrees parameters
                (_confidence_scipy_brentq minimize brentq float_pow parameters
                   parameter function sigma false kwargs) h r Hin) as Hlower.
  fold lower in Hlower.
  destruct (lower h) as [[result | e] h1]; simpl in Hlower; [| exact Hlower].
  pose proof (restore_values_agrees parameters
                (_confidence_scipy_brentq minimize brentq float_pow parameters
                   parameter function sigma true kwargs) h1 r Hin) as Hupper.
  fold upper in Hupper.
  destruct (upper h1) as [[result_errp | e] h2]; simpl in Hupper |- *;
    exact (agrees_trans _ _ _ _ Hlower Hupper).
Qed.

End Confidence.

(** ** What a search may change *)

Lemma TSDifference_fcn_unfold minimize (self : TSDifference) (x : float) (h : Heap) :
  TSDifference_fcn minimize self x h =
  match optimize_scipy minimize (ts_parameters self) (ts_function self)
          no_kwargs (set_factor (ts_parameter self) x h)
  with
  | (Returns _, h') =>
      (Returns (ts_function self (view (ts_parameters self) h')
                  - loglike_ref self - ts_diff self)%float, h')
  | (Raises e, h') => (Raises e, h')
  end.
Proof.
  unfold TSDifference_fcn, bind, modify, get_heap, ret.
  destruct (optimize_scipy _ _ _ _ _) as [[result | e] h']; reflexivity.
Qed.

Lemma free_parameters_in parameters h r :
  In r (free_parameters parameters h) -> In r (pars parameters).
Proof. unfold free_parameters. intros Hin. now apply filter_In in Hin. Qed.

Section Invariance.

(** A reflexive and transitive relation between stores that every write of a
    factor to a reachable parameter respects. *)
Variable rel : Heap -> Heap -> Prop.
Hypothesis rel_refl : forall h, rel h h.
Hypothesis rel_trans : forall h1 h2 h3, rel h1 h2 -> rel h2 h3 -> rel h1 h3.

Variable parameters : ParamSet.
Variable parameter : ref.
Hypothesis rel_set_factor :
  forall r v h, reachable parameters parameter r -> rel h (set_factor r v h).

Lemma run_routine_rel {Q R} (callback : Q -> Py float) :
  (forall q h, rel h (snd (callback q h))) ->
  forall (t : Routine Q R) h, rel h (snd (run_routine callback t h)).
Proof.
  intros Hcb t. induction t as [r | e | q k IH]; intros h; simpl.
  - apply rel_refl.
  - apply rel_refl.
  - pose proof (Hcb q h) as Hstep.
    destruct (callback q h) as [[v | e] h']; simpl in Hstep.
    + eapply rel_trans; [exact Hstep | apply IH].
    + exact Hstep.
Qed.

Lemma set_parameter_factors_rel (rs : list ref) :
  (forall r, In r rs -> In r (pars parameters)) ->
  forall factors h, rel h (set_parameter_factors rs factors h).
Proof.
  induction rs as [| r rs IH]; intros Hsub factors h; simpl.
  - apply rel_refl.
  - destruct factors as [| v factors]; [apply rel_refl |].
    eapply rel_trans.
    + apply rel_set_factor. left. apply Hsub. now left.
    + apply IH. intros r' Hin. apply Hsub. now right.
Qed.

Lemma Likelihood_fcn_rel function factors h :
  rel h (snd (Likelihood_fcn function parameters factors h)).
Proof.
  unfold Likelihood_fcn.
  destruct (Nat.eqb _ _); simpl; [| apply rel_refl].
  apply set_parameter_factors_rel. intros r. apply free_parameters_in.
Qed.

Lemma optimize_scipy_rel minimize function kwargs h :
  rel h (snd (optimize_scipy minimize parameters function kwargs h)).
Proof.
  rewrite optimize_scipy_unfold.
  pose proof (run_routine_rel (Likelihood_fcn function parameters)
                (Likelihood_fcn_rel function)
                (minimize (initial_factors parameters h)
                   (factor_bounds parameters h)
                   (default "Nelder-Mead" (kw_method kwargs))
                   (kw_minimize kwargs)) h) as Hrun.
  destruct (run_routine _ _ h) as [[result | e] h']; exact Hrun.
Qed.

Lemma TSDifference_fcn_rel minimize function loglike ts x h :
  rel h (snd (TSDifference_fcn minimize
                (mkTSDifference loglike parameters function parameter ts) x h)).
Proof.
  rewrite TSDifference_fcn_unfold. simpl.
  pose proof (optimize_scipy_rel minimize function no_kwargs
                (set_factor parameter x h)) as Hopt.
  assert (Hset : rel h (set_factor parameter x h))
    by (apply rel_set_factor; now right).
  destruct (optimize_scipy _ _ _ _ _) as [[result | e] h']; simpl in *;
    eapply rel_trans; eassumption.
Qed.

Lemma bracket_search_rel minimize brentq function loglike ts a b rest upper h :
  rel h (snd (bracket_search minimize brentq
                (mkTSDifference loglike parameters function parameter ts)
                a b rest upper h)).
Proof.
  unfold bracket_search, bind, try_brentq.
  pose proof (run_routine_rel
                (TSDifference_fcn minimize
                   (mkTSDifference loglike parameters function parameter ts))
                (TSDifference_fcn_rel minimize function loglike ts)
                (brentq a b rest) h) as Hrun.
  destruct (run_routine _ _ h) as [[result | e] h']; simpl in Hrun.
  - unfold confidence_dict, ret. exact Hrun.
  - destruct e; simpl; exact Hrun.
Qed.

End Invariance.

Lemma frame_refl S h : frame S h h.
Proof. intros r. repeat split. Qed.

Lemma frame_trans S h1 h2 h3 : frame S h1 h2 -> frame S h2 h3 -> frame S h1 h3.
Proof.
  intros H12 H23 r.
  destruct (H12 r) as (Hn & Hs & Hmin & Hmax & Hout).
  destruct (H23 r) as (Hn' & Hs' & Hmin' & Hmax' & Hout').
  repeat split; try congruence.
  intros HS. rewrite Hout', Hout by exact HS. reflexivity.
Qed.

Lemma frame_update (S : ref -> Prop) h r p :
  S r ->
  par_name p = par_name (h r) -> par_scale p = par_scale (h r) ->
  par_factor_min p = par_factor_min (h r) ->
  par_factor_max p = par_factor_max (h r) ->
  frame S h (update h r p).
Proof.
  intros HS Hn Hs Hmin Hmax r'.
  destruct (Nat.eq_dec r' r) as [-> | Hne].
  - rewrite update_same. repeat split; try assumption.
    intros Hout. contradiction.
  - rewrite update_other by exact Hne. repeat split.
Qed.

Lemma frame_set_factor (S : ref -> Prop) r v h : S r -> frame S h (set_factor r v h).
Proof. intros HS. unfold set_factor. now apply frame_update. Qed.

Lemma frame_set_frozen (S : ref -> Prop) r b h : S r -> frame S h (set_frozen r b h).
Proof. intros HS. unfold set_frozen. now apply frame_update. Qed.

Lemma same_frozen_refl h : same_frozen h h.
Proof. intros r. reflexivity. Qed.

Lemma same_frozen_trans h1 h2 h3 :
  same_frozen h1 h2 -> same_frozen h2 h3 -> same_frozen h1 h3.
Proof. intros H12 H23 r. rewrite H23. apply H12. Qed.

Lemma same_frozen_set_factor r v h : same_frozen h (set_factor r v h).
Proof.
  intros r'. unfold set_factor.
  destruct (Nat.eq_dec r' r) as [-> | Hne].
  - rewrite update_same. reflexivity.
  - rewrite update_other by exact Hne. reflexivity.
Qed.

(** Leaving the scope gives back the very store it was entered with, when
    the body stayed within its frame and the target belongs to the set. *)
Lemma restore_values_identity {A} parameters parameter (body : Py A) h :
  In parameter (pars parameters) ->
  frame (reachable parameters parameter) h (snd (body h)) ->
  snd (restore_values parameters body h) = h.
Proof.
  intros Htarget Hframe. unfold restore_values.
  destruct (body h) as [o h']. simpl in *.
  apply functional_extensionality. intros r.
  destruct (Hframe r) as (Hn & Hs & Hmin & Hmax & Hout).
  destruct (in_dec Nat.eq_dec r (pars parameters)) as [Hin | Hnot].
  - destruct (restore_static h (pars parameters) h' r) as (Hn' & Hs' & Hmin' & Hmax').
    destruct (restore_sets h (pars parameters) h' r Hin) as [Hv Hf].
    apply param_eq; unfold snapshot; congruence.
  - unfold snapshot. rewrite restore_outside by exact Hnot.
    apply Hout. intros [Hin | ->]; contradiction.
Qed.

Section Idempotence.

Variable minimize : Minimizer.
Variable brentq : RootFinder.
Variable float_pow : float -> float -> float.

Lemma _confidence_scipy_brentq_frame
    parameters parameter function sigma upper kwargs h :
  frame (reachable parameters parameter) h
    (snd (_confidence_scipy_brentq minimize brentq float_pow parameters
            parameter function sigma upper kwargs h)).
Proof.
  rewrite _confidence_scipy_brentq_unfold.
  eapply frame_trans.
  - apply (frame_set_frozen (reachable parameters parameter) parameter true h).
    now right.
  - apply (bracket_search_rel (frame (reachable parameters parameter))).
    + apply frame_refl.
    + apply frame_trans.
    + intros r v h1. apply frame_set_factor.
Qed.

Lemma confidence_scipy_identity parameters parameter function sigma kwargs h :
  In parameter (pars parameters) ->
  snd (confidence_scipy minimize brentq float_pow parameters parameter
         function sigma kwargs h) = h.
Proof.
  intros Htarget. unfold confidence_scipy, bind.
  pose proof (restore_values_identity parameters parameter
                (_confidence_scipy_brentq minimize brentq float_pow parameters
                   parameter function sigma false kwargs) h Htarget
                (_confidence_scipy_brentq_frame _ _ _ _ _ _ _)) as Hlower.
  destruct (restore_values parameters _ h) as [[result | e] h1];
    simpl in Hlower; subst h1; [| reflexivity].
  pose proof (restore_values_identity parameters parameter
                (_confidence_scipy_brentq minimize brentq float_pow parameters
                   parameter function sigma true kwargs) h Htarget
                (_confidence_scipy_brentq_frame _ _ _ _ _ _ _)) as Hupper.
  destruct (restore_values parameters _ h) as [[result_errp | e] h2];
    simpl in Hupper; subst h2; reflexivity.
Qed.

(** C8: two calls of [confidence_scipy] in a row, for a target that belongs
    to the set, end the same way, with the same result or the same error, and
    the store after the second call is the store before the first. *)
Theorem confidence_scipy_twice parameters parameter function sigma kwargs h :
  In parameter (pars parameters) ->
  let first :=
    confidence_scipy minimize brentq float_pow parameters parameter function
      sigma kwargs h in
  let second :=
    confidence_scipy minimize brentq float_pow parameters parameter function
      sigma kwargs (snd first) in
  fst second = fst first /\ snd second = h.
Proof.
  intros Htarget first second. subst second first.
  rewrite !(confidence_scipy_identity _ _ _ _ _ h Htarget).
  split; reflexivity.
Qed.

End Idempotence.

(** ** The profile evaluation function *)

Lemma run_routine_map {Q R R'} (callback : Q -> Py float) (g : R -> R')
    (t : Routine Q R) :
  forall h,
    run_routine callback (map_routine g t) h =
    match run_routine callback t h with
    | (Returns r, h') => (Returns (g r), h')
    | (Raises e, h') => (Raises e, h')
    end.
Proof.
  induction t as [r | e | q k IH]; intros h; simpl; try reflexivity.
  destruct (callback q h) as [[v | e] h']; [apply IH | reflexivity].
Qed.

Lemma Likelihood_fcn_returns function parameters factors h v h' :
  Likelihood_fcn function parameters factors h = (Returns v, h') ->
  v = function (view parameters h').
Proof.
  unfold Likelihood_fcn. destruct (Nat.eqb _ _); intros Heq.
  - now inversion Heq.
  - discriminate Heq.
Qed.

(** Once the adapter has been called, the last value it gave is the
    objective of the store the routine leaves. *)
Lemma last_answer_some function parameters {R}
    (t : Routine (list float) R) :
  forall v h r h',
    run_routine (Likelihood_fcn function parameters) t h = (Returns r, h') ->
    function (view parameters h) = v ->
    last_answer (Likelihood_fcn function parameters) t (Some v) h
      = Some (function (view parameters h')).
Proof.
  induction t as [r0 | e | q k IH]; intros v h r h' Hrun Hv; simpl in *.
  - unfold ret in Hrun. inversion Hrun; subst. reflexivity.
  - discriminate Hrun.
  - destruct (Likelihood_fcn function parameters q h) as [[w | e] h1] eqn:Hcall;
      [| discriminate Hrun].
    apply (IH w w h1 r h' Hrun).
    symmetry. exact (Likelihood_fcn_returns _ _ _ _ _ _ Hcall).
Qed.

Lemma last_answer_default function parameters {R}
    (t : Routine (list float) R) h r h' :
  run_routine (Likelihood_fcn function parameters) t h = (Returns r, h') ->
  function (view parameters h') =
  default (function (view parameters h))
    (last_answer (Likelihood_fcn function parameters) t None h).
Proof.
  destruct t as [r0 | e | q k]; simpl; intros Hrun.
  - unfold ret in Hrun. inversion Hrun; subst. reflexivity.
  - discriminate Hrun.
  - destruct (Likelihood_fcn function parameters q h) as [[w | e] h1] eqn:Hcall;
      [| discriminate Hrun].
    rewrite (last_answer_some function parameters (k w) w h1 r h' Hrun).
    + reflexivity.
    + symmetry. exact (Likelihood_fcn_returns _ _ _ _ _ _ Hcall).
Qed.

(** C4: [TSDifference.fcn] makes no use of what the inner [optimize_scipy]
    returns.  (1) Post-processing the minimizer's result in any way changes
    neither the value of [fcn] nor the store it leaves.  (2) The objective is
    read off the store the minimizer's run leaves, so the value is that of
    the minimizer's last evaluation, or of the starting store when it
    evaluated nothing.  (3) That need not be the optimum: with the
    minimizer [Sample.probe] the best factor for [y] is 0, the store is left
    at 1, and [fcn] returns 0 where the optimum would give -1. *)
Theorem fcn_discards_best_factors :
  (forall (minimize : Minimizer) (g : OptimizeResult -> OptimizeResult)
          (self : TSDifference) (x : float) (h : Heap),
      TSDifference_fcn
        (fun x0 bounds method opts => map_routine g (minimize x0 bounds method opts))
        self x h
      = TSDifference_fcn minimize self x h)
  /\ (forall (minimize : Minimizer) (self : TSDifference) (x : float) (h : Heap),
      let h0 := set_factor (ts_parameter self) x h in
      let adapter := Likelihood_fcn (ts_function self) (ts_parameters self) in
      let call :=
        minimize (initial_factors (ts_parameters self) h0)
          (factor_bounds (ts_parameters self) h0) "Nelder-Mead" [] in
      TSDifference_fcn minimize self x h =
      match run_routine adapter call h0 with
      | (Returns _, h') =>
          (Returns (default (ts_function self (view (ts_parameters self) h0))
                      (last_answer adapter call None h0)
                    - loglike_ref self - ts_diff self)%float, h')
      | (Raises e, h') => (Raises e, h')
      end)
  /\ (let self := mkTSDifference 0 Sample.both Sample.parabola 0%nat 1 in
      let h := set_frozen 0%nat true Sample.store in
      let after :=
        optimize_scipy Sample.probe Sample.both Sample.parabola no_kwargs
          (set_factor 0%nat 3 h) in
      fst after
        = Returns ([0%float],
                   optimize_info
                     (mkOptimizeResult [0%float] true
                        "Optimization terminated successfully." 2),
                   None)
      /\ factor (snd after 1%nat) = 1%float
      /\ fst (TSDifference_fcn Sample.probe self 3 h) = Returns 0%float
      /\ (Sample.parabola (view Sample.both (set_factor 1%nat 0 (snd after)))
            - loglike_ref self - ts_diff self)%float = (-1)%float).
Proof.
  split; [| split].
  - intros minimize g self x h.
    rewrite !TSDifference_fcn_unfold, !optimize_scipy_unfold.
    rewrite run_routine_map.
    destruct (run_routine _ _ _) as [[result | e] h']; reflexivity.
  - intros minimize self x h h0 adapter call.
    rewrite TSDifference_fcn_unfold, optimize_scipy_unfold.
    fold h0. simpl (default _ (kw_method no_kwargs)). simpl (kw_minimize no_kwargs).
    fold call. fold adapter.
    destruct (run_routine adapter call h0) as [[result | e] h'] eqn:Hrun;
      [| reflexivity].
    subst adapter.
    rewrite (last_answer_default _ _ call h0 result h' Hrun). reflexivity.
  - repeat split; reflexivity.
Qed.

Lemma free_parameters_without_target parameters parameter x h :
  par_frozen (h parameter) = true ->
  free_parameters parameters (set_factor parameter x h) =
  List.filter (fun r => negb (par_frozen (h r)) && negb (Nat.eqb r parameter))
    (pars parameters).
Proof.
  intros Hfrozen. unfold free_parameters.
  apply filter_ext. intros r.
  rewrite (same_frozen_set_factor parameter x h r).
  destruct (Nat.eqb_spec r parameter) as [-> | Hne].
  - rewrite Hfrozen. reflexivity.
  - now rewrite andb_true_r.
Qed.

Lemma frozen_kept_refl h : frozen_kept h h.
Proof. intros r _. reflexivity. Qed.

Lemma frozen_kept_trans h1 h2 h3 :
  frozen_kept h1 h2 -> frozen_kept h2 h3 -> frozen_kept h1 h3.
Proof.
  intros H12 H23 r Hfrozen.
  rewrite H23; [now apply H12 |].
  rewrite (H12 r Hfrozen). exact Hfrozen.
Qed.

Lemma frozen_kept_set_parameter_factors (rs : list ref) :
  forall factors h,
    (forall r, In r rs -> par_frozen (h r) = false) ->
    frozen_kept h (set_parameter_factors rs factors h).
Proof.
  induction rs as [| r0 rs IH]; intros factors h Hfree; simpl.
  - apply frozen_kept_refl.
  - destruct factors as [| v factors]; [apply frozen_kept_refl |].
    apply frozen_kept_trans with (h2 := set_factor r0 v h).
    + intros r Hfrozen. unfold set_factor. apply update_other.
      intros ->. rewrite (Hfree r0) in Hfrozen by now left. discriminate.
    + apply IH. intros r Hin.
      rewrite (same_frozen_set_factor r0 v h r). apply Hfree. now right.
Qed.

Lemma frozen_kept_Likelihood_fcn function parameters factors h :
  frozen_kept h (snd (Likelihood_fcn function parameters factors h)).
Proof.
  unfold Likelihood_fcn.
  destruct (Nat.eqb _ _); simpl; [| apply frozen_kept_refl].
  apply frozen_kept_set_parameter_factors.
  intros r Hin. unfold free_parameters in Hin.
  apply filter_In in Hin. destruct Hin as [_ Hfree].
  now apply negb_true_iff in Hfree.
Qed.

(** Writing a factor into a frozen parameter, written out. *)
Lemma set_factor_frozen parameter x h :
  par_frozen (h parameter) = true ->
  set_factor parameter x h =
  fun r =>
    if Nat.eqb r parameter then
      mkParam (par_name (h parameter))
        (x * par_scale (h parameter))%float (par_scale (h parameter))
        (par_factor_min (h parameter)) (par_factor_max (h parameter)) true
    else h r.
Proof.
  intros Hfrozen. apply functional_extensionality. intros r.
  unfold set_factor, update, with_factor. rewrite Hfrozen. reflexivity.
Qed.

(** Freezing a parameter, written out. *)
Lemma set_frozen_true parameter h :
  set_frozen parameter true h =
  fun r =>
    if Nat.eqb r parameter then
      mkParam (par_name (h r)) (par_value (h r)) (par_scale (h r))
        (par_factor_min (h r)) (par_factor_max (h r)) true
    else h r.
Proof.
  apply functional_extensionality. intros r.
  unfold set_frozen, update, with_frozen.
  destruct (Nat.eqb_spec r parameter) as [-> | _]; reflexivity.
Qed.

Section Profile.

Variable minimize : Minimizer.
Variable brentq : RootFinder.
Variable float_pow : float -> float -> float.

(** C3: the function [g] that one bracket search hands to the root-finder.
    (1) One search is one run of the root-finder on [g], started in the store
    where the target is frozen; [g] is built once, before the run, with
    [loglike_ref] the objective of the store the search was called in, read
    before the target is frozen, and with [ts_diff = sigma ** 2].
    (2) For every [x], in a store where the target is frozen, [g x] is one
    run of the minimizer, with method Nelder-Mead and no other option, from
    the store in which the target's value is [x] times its scale and nothing
    else has changed; the minimizer starts from the factors of the parameters
    of the set that are free and are not the target, with their bounds, and
    its callback writes its argument into those parameters and evaluates the
    objective.  [g x] returns the objective of the store that the run leaves,
    minus [loglike_ref], minus [ts_diff]; an error of the run passes through.
    The run leaves the target as the factor mutator set it for [x]: its
    factor reads [x * scale / scale], which is [x] whenever that product and
    quotient are exact, and it is still frozen; no frozen flag changes.  (3) [ts_diff] is the square of
    [sigma] when the power function squares. *)
Theorem TSDifference_fcn_profile
    parameters parameter function sigma (upper : bool) kwargs (h : Heap) :
  let loglike := function (view parameters h) in
  let g :=
    mkTSDifference loglike parameters function parameter (float_pow sigma 2) in
  let frozen : Heap :=
    fun r =>
      if Nat.eqb r parameter then
        mkParam (par_name (h r)) (par_value (h r)) (par_scale (h r))
          (par_factor_min (h r)) (par_factor_max (h r)) true
      else h r in
  let interval := search_interval parameters parameter upper kwargs frozen in
  _confidence_scipy_brentq minimize brentq float_pow parameters parameter
    function sigma upper kwargs h
  = match run_routine (TSDifference_fcn minimize g)
            (brentq (fst interval) (snd interval) (kw_brentq kwargs)) frozen
    with
    | (Returns result, h') =>
        confidence_dict g (fst interval) upper (Some result)
          "Confidence terminated successfully." true h'
    | (Raises ValueError, h') => (Raises UnboundLocalError, h')
    | (Raises e, h') => (Raises e, h')
    end
  /\ (forall x hx,
        par_frozen (hx parameter) = true ->
        let p := hx parameter in
        let written : Heap :=
          fun r =>
            if Nat.eqb r parameter then
              mkParam (par_name p) (x * par_scale p)%float (par_scale p)
                (par_factor_min p) (par_factor_max p) true
            else hx r in
        let others :=
          List.filter
            (fun r => negb (par_frozen (hx r)) && negb (Nat.eqb r parameter))
            (pars parameters) in
        let start := map (fun r => factor (hx r)) others in
        let bounds :=
          map (fun r => (not_nan (par_factor_min (hx r)),
                         not_nan (par_factor_max (hx r)))) others in
        let optimum :=
          run_routine (Likelihood_fcn function parameters)
            (minimize start bounds "Nelder-Mead" []) written in
        TSDifference_fcn minimize g x hx
        = match optimum with
          | (Returns _, h') =>
              (Returns (function (view parameters h') - loglike
                          - float_pow sigma 2)%float, h')
          | (Raises e, h') => (Raises e, h')
          end
        /\ snd optimum parameter = with_factor x p
        /\ snd optimum parameter
           = mkParam (par_name p) (x * par_scale p)%float (par_scale p)
               (par_factor_min p) (par_factor_max p) true
        /\ factor (snd optimum parameter)
           = (x * par_scale p / par_scale p)%float
        /\ ((x * par_scale p / par_scale p)%float = x ->
            factor (snd optimum parameter) = x)
        /\ (forall r, par_frozen (snd optimum r) = par_frozen (hx r)))
  /\ (float_pow sigma 2 = (sigma * sigma)%float ->
      ts_diff g = (sigma * sigma)%float).
Proof.
  intros loglike g frozen interval. split; [| split].
  - subst interval frozen. rewrite <- set_frozen_true.
    rewrite _confidence_scipy_brentq_unfold.
    unfold bracket_search, bind, try_brentq. fold loglike. fold g.
    destruct (run_routine _ _ (set_frozen parameter true h))
      as [[result | e] h']; [reflexivity |].
    destruct e; reflexivity.
  - intros x hx Hfrozen p written others start bounds optimum.
    assert (Hwritten : set_factor parameter x hx = written)
      by (apply set_factor_frozen; exact Hfrozen).
    assert (Hothers : free_parameters parameters (set_factor parameter x hx)
                      = others)
      by (apply free_parameters_without_target; exact Hfrozen).
    assert (Hout : forall r, In r others -> set_factor parameter x hx r = hx r).
    { intros r Hin. subst others. apply filter_In in Hin.
      destruct Hin as [_ Hin]. apply andb_true_iff in Hin.
      destruct Hin as [_ Hne]. apply negb_true_iff in Hne.
      unfold set_factor. apply update_other.
      now apply Nat.eqb_neq. }
    assert (Hstart : initial_factors parameters (set_factor parameter x hx)
                     = start).
    { unfold initial_factors. rewrite Hothers. subst start.
      apply map_ext_in. intros r Hin. now rewrite Hout. }
    assert (Hbounds : factor_bounds parameters (set_factor parameter x hx)
                      = bounds).
    { unfold factor_bounds. rewrite Hothers. subst bounds.
      apply map_ext_in. intros r Hin. now rewrite Hout. }
    assert (Hkept : frozen_kept written (snd optimum)).
    { subst optimum.
      apply (run_routine_rel frozen_kept frozen_kept_refl frozen_kept_trans).
      intros q h0. apply frozen_kept_Likelihood_fcn. }
    assert (Hflags : same_frozen written (snd optimum)).
    { subst optimum.
      apply (run_routine_rel same_frozen same_frozen_refl same_frozen_trans).
      intros q h0.
      apply (Likelihood_fcn_rel same_frozen same_frozen_refl same_frozen_trans
               parameters parameter).
      intros r v h1 _. apply same_frozen_set_factor. }
    assert (Htarget : snd optimum parameter
                      = mkParam (par_name p) (x * par_scale p)%float
                          (par_scale p) (par_factor_min p) (par_factor_max p)
                          true).
    { rewrite (Hkept parameter); subst written; simpl;
        rewrite Nat.eqb_refl; reflexivity. }
    split; [| split; [| split; [| split; [| split]]]].
    + rewrite TSDifference_fcn_unfold. simpl.
      rewrite optimize_scipy_unfold. simpl.
      rewrite Hstart, Hbounds, Hwritten. fold optimum.
      destruct optimum as [[result | e] h']; reflexivity.
    + rewrite Htarget. unfold with_factor. subst p. rewrite Hfrozen.
      reflexivity.
    + exact Htarget.
    + rewrite Htarget. reflexivity.
    + intros Hexact. rewrite Htarget. exact Hexact.
    + intros r. rewrite (Hflags r). rewrite <- Hwritten.
      apply same_frozen_set_factor.
  - intros Hsquare. exact Hsquare.
Qed.

(** Lines 65 to 80 when the root-finder's run ends in [ValueError]: the
    handler sets [message] and [success], [result] stays unbound, and
    building the dictionary raises. *)
Lemma bracket_search_after_ValueError ts a b rest upper h h' :
  run_routine (TSDifference_fcn minimize ts) (brentq a b rest) h
    = (Raises ValueError, h') ->
  bracket_search minimize brentq ts a b rest upper h
    = (Raises UnboundLocalError, h').
Proof.
  intros Hrun. unfold bracket_search, bind, try_brentq. rewrite Hrun.
  reflexivity.
Qed.

(** The same for the whole call: a [ValueError] in the lower search makes
    [confidence_scipy] raise, and the upper search is never run. *)
Lemma confidence_scipy_after_ValueError
    parameters parameter function sigma kwargs h h' :
  run_routine
    (TSDifference_fcn minimize
       (mkTSDifference (function (view parameters h)) parameters function
          parameter (float_pow sigma 2)))
    (brentq
       (fst (search_interval parameters parameter false kwargs
               (set_frozen parameter true h)))
       (snd (search_interval parameters parameter false kwargs
               (set_frozen parameter true h)))
       (kw_brentq kwargs))
    (set_frozen parameter true h)
    = (Raises ValueError, h') ->
  fst (confidence_scipy minimize brentq float_pow parameters parameter
         function sigma kwargs h) = Raises UnboundLocalError.
Proof.
  intros Hrun. unfold confidence_scipy, bind, restore_values.
  rewrite _confidence_scipy_brentq_unfold.
  rewrite (bracket_search_after_ValueError _ _ _ _ false _ _ Hrun).
  reflexivity.
Qed.

End Profile.

Lemma TSDifference_fcn_profile_witness :
  par_frozen (set_frozen 0%nat true Sample.store 0%nat) = true
  /\ (4 * par_scale (set_frozen 0%nat true Sample.store 0%nat)
        / par_scale (set_frozen 0%nat true Sample.store 0%nat))%float
     = 4%float
  /\ factor
       (snd (TSDifference_fcn Sample.evaluate_once
               (mkTSDifference (Sample.parabola (view Sample.both Sample.store))
                  Sample.both Sample.parabola 0%nat
                  (Sample.square_pow 1%float 2%float))
               4%float (set_frozen 0%nat true Sample.store)) 0%nat)
     = 4%float.
Proof.
  split; [reflexivity |]. split; [reflexivity |].
  exact (proj1 (proj2 (proj2 (proj2 (proj2
           (proj1 (proj2
              (TSDifference_fcn_profile Sample.evaluate_once
                 (Sample.bisection 30) Sample.square_pow Sample.both 0%nat
                 Sample.parabola 1%float true Sample.defaults Sample.store))
              4%float (set_frozen 0%nat true Sample.store) eq_refl)))))
           eq_refl).
Defined.

Lemma confidence_scipy_restores_witness :
  In 0%nat (pars Sample.both) /\
  par_value
    (snd (confidence_scipy Sample.evaluate_once (Sample.bisection 30)
            Sample.square_pow Sample.both 0%nat Sample.slope 1
            Sample.defaults Sample.store) 0%nat)
    = par_value (Sample.store 0%nat) /\
  par_frozen
    (snd (confidence_scipy Sample.evaluate_once (Sample.bisection 30)
            Sample.square_pow Sample.both 0%nat Sample.slope 1
            Sample.defaults Sample.store) 0%nat)
    = par_frozen (Sample.store 0%nat).
Proof.
  split; [left; reflexivity |].
  exact (confidence_scipy_restores Sample.evaluate_once (Sample.bisection 30)
           Sample.square_pow Sample.both 0%nat Sample.slope 1%float
           Sample.defaults Sample.store 0%nat (or_introl eq_refl)).
Defined.

Lemma confidence_scipy_twice_witness :
  In 0%nat (pars Sample.both) /\
  fst (confidence_scipy Sample.evaluate_once (Sample.bisection 30)
         Sample.square_pow Sample.both 0%nat Sample.parabola 1
         Sample.defaults
         (snd (confidence_scipy Sample.evaluate_once (Sample.bisection 30)
                 Sample.square_pow Sample.both 0%nat Sample.parabola 1
                 Sample.defaults Sample.store)))
    = fst (confidence_scipy Sample.evaluate_once (Sample.bisection 30)
             Sample.square_pow Sample.both 0%nat Sample.parabola 1
             Sample.defaults Sample.store) /\
  snd (confidence_scipy Sample.evaluate_once (Sample.bisection 30)
         Sample.square_pow Sample.both 0%nat Sample.parabola 1
         Sample.defaults
         (snd (confidence_scipy Sample.evaluate_once (Sample.bisection 30)
                 Sample.square_pow Sample.both 0%nat Sample.parabola 1
                 Sample.defaults Sample.store)))
    = Sample.store.
Proof.
  split; [left; reflexivity |].
  exact (confidence_scipy_twice Sample.evaluate_once (Sample.bisection 30)
           Sample.square_pow Sample.both 0%nat Sample.parabola 1%float
           Sample.defaults Sample.store (or_introl eq_refl)).
Defined.

(** C1, where the code breaks it: the objective [x + y^2] rises with [x], so
    in the lower search the profile function is negative at both endpoints,
    3 and -97.  The root-finder refuses the interval with [ValueError]; the
    handler catches it, and [confidence_scipy] then raises
    [UnboundLocalError] instead of returning a dictionary with
    [success_errn = False]. *)
Theorem confidence_scipy_bracketing_failure_raises :
  fst (run_routine
         (TSDifference_fcn Sample.evaluate_once
            (mkTSDifference 3 Sample.both Sample.slope 0%nat 1))
         (Sample.bisection 30 3%float (-97)%float [])
         (set_frozen 0%nat true Sample.store))
    = Raises ValueError
  /\ fst (_confidence_scipy_brentq Sample.evaluate_once (Sample.bisection 30)
            Sample.square_pow Sample.both 0%nat Sample.slope 1 false
            Sample.defaults Sample.store)
       = Raises UnboundLocalError
  /\ fst (confidence_scipy Sample.evaluate_once (Sample.bisection 30)
            Sample.square_pow Sample.both 0%nat Sample.slope 1
            Sample.defaults Sample.store)
       = Raises UnboundLocalError.
Proof. repeat split; vm_compute; reflexivity. Qed.

(** * Further properties of the module *)

(** ** What a search returns *)

Section SearchOutcome.

Variable minimize : Minimizer.
Variable brentq : RootFinder.
Variable float_pow : float -> float -> float.

(** A search returns only when the root-finder returned, and then with the
    success message and flag. *)
Lemma bracket_search_returns ts a b rest (upper : bool) h d h' :
  bracket_search minimize brentq ts a b rest upper h = (Returns d, h') ->
  exists root info,
    run_routine (TSDifference_fcn minimize ts) (brentq a b rest) h
      = (Returns (root, info), h')
    /\ confidence_dict ts a upper (Some (root, info))
         "Confidence terminated successfully." true h' = (Returns d, h').
Proof.
  unfold bracket_search, bind, try_brentq.
  destruct (run_routine _ _ h) as [[[root info] | e] h1] eqn:Hrun.
  - intros Hd. exists root, info.
    assert (h1 = h') by (unfold confidence_dict, ret in Hd; now inversion Hd).
    subst h1. split; [reflexivity | exact Hd].
  - destruct e; simpl; intros Hd; discriminate Hd.
Qed.

(** One search, when it returns: the dictionary holds the distance of the
    root from the near endpoint [a], which is the caller's [a] if given and
    the target's factor otherwise, the root-finder's count of iterations
    under [nfev_], and the success flag and message. *)
Theorem _confidence_scipy_brentq_returned
    parameters parameter function sigma (upper : bool) kwargs (h : Heap) d h' :
  _confidence_scipy_brentq minimize brentq float_pow parameters parameter
    function sigma upper kwargs h = (Returns d, h') ->
  let suffix := if upper then "errp" else "errn" in
  let a := default (factor (h parameter)) (kw_a kwargs) in
  exists root info b,
    run_routine
      (TSDifference_fcn minimize
         (mkTSDifference (function (view parameters h)) parameters function
            parameter (float_pow sigma 2)))
      (brentq a b (kw_brentq kwargs)) (set_frozen parameter true h)
      = (Returns (root, info), h')
    /\ d !! suffix = Some (VFloat (abs (root - a)))
    /\ d !! ("nfev_" +:+ suffix) = Some (VInt (rr_iterations info))
    /\ d !! ("success_" +:+ suffix) = Some (VBool true)
    /\ d !! ("message_" +:+ suffix)
         = Some (VStr "Confidence terminated successfully.")
    /\ d !! "loglike_ref" = Some (VFloat (function (view parameters h))).
Proof.
  intros Hd suffix a. rewrite _confidence_scipy_brentq_unfold in Hd.
  apply bracket_search_returns in Hd. destruct Hd as (root & info & Hrun & Hdict).
  assert (Ha : fst (search_interval parameters parameter upper kwargs
                      (set_frozen parameter true h)) = a).
  { unfold search_interval. simpl. now rewrite set_frozen_at. }
  rewrite Ha in Hrun, Hdict.
  exists root, info, (snd (search_interval parameters parameter upper kwargs
                             (set_frozen parameter true h))).
  split; [exact Hrun |].
  unfold confidence_dict, ret in Hdict. inversion Hdict as [Heq]. clear Hdict.
  subst suffix. destruct upper; simpl; repeat split; reflexivity.
Qed.

End SearchOutcome.


(** The objective sees the same set after the scope as before it. *)
Lemma restore_values_view {A} parameters parameter (body : Py A) h :
  frame (reachable parameters parameter) h (snd (body h)) ->
  view parameters (snd (restore_values parameters body h)) = view parameters h.
Proof.
  intros Hframe. unfold restore_values.
  destruct (body h) as [o h1]. simpl in *.
  unfold view. apply map_ext_in. intros r Hin.
  destruct (Hframe r) as (Hn & Hs & Hmin & Hmax & _).
  destruct (restore_static h (pars parameters) h1 r) as (Hn' & Hs' & Hmin' & Hmax').
  destruct (restore_sets h (pars parameters) h1 r Hin) as [Hv Hf].
  apply param_eq; unfold snapshot; congruence.
Qed.

Section CallOutcome.

Variable minimize : Minimizer.
Variable brentq : RootFinder.
Variable float_pow : float -> float -> float.

(** A search called on its own, when it returns, has left the target frozen
    and has changed no other frozen flag: only the scope in
    [confidence_scipy] thaws the target again. *)
Theorem _confidence_scipy_brentq_leaves_target_frozen
    parameters parameter function sigma (upper : bool) kwargs (h : Heap) d h' :
  _confidence_scipy_brentq minimize brentq float_pow parameters parameter
    function sigma upper kwargs h = (Returns d, h') ->
  forall r,
    par_frozen (h' r) = if Nat.eqb r parameter then true else par_frozen (h r).
Proof.
  intros Hd r.
  pose proof (bracket_search_rel same_frozen same_frozen_refl
                same_frozen_trans parameters parameter
                (fun r0 v h0 _ => same_frozen_set_factor r0 v h0)
                minimize brentq function (function (view parameters h))
                (float_pow sigma 2)
                (fst (search_interval parameters parameter upper kwargs
                        (set_frozen parameter true h)))
                (snd (search_interval parameters parameter upper kwargs
                        (set_frozen parameter true h)))
                (kw_brentq kwargs) upper (set_frozen parameter true h) r)
    as Hflags.
  rewrite <- _confidence_scipy_brentq_unfold in Hflags.
  rewrite Hd in Hflags. simpl in Hflags. rewrite Hflags.
  destruct (Nat.eqb_spec r parameter) as [-> | Hne].
  - now rewrite set_frozen_at.
  - unfold set_frozen. now rewrite update_other.
Qed.

End CallOutcome.

Section ReturnedDictionary.

Variable minimize : Minimizer.
Variable brentq : RootFinder.
Variable float_pow : float -> float -> float.



End ReturnedDictionary.

Lemma _confidence_scipy_brentq_returned_witness :
  Sample.returned
    (fst (_confidence_scipy_brentq Sample.evaluate_once (Sample.bisection 30)
            Sample.square_pow Sample.both 0%nat Sample.parabola 1 true
            Sample.defaults Sample.store)) !! "success_errp"
  = Some (VBool true).
Proof.
  assert (Hcall :
    _confidence_scipy_brentq Sample.evaluate_once (Sample.bisection 30)
      Sample.square_pow Sample.both 0%nat Sample.parabola 1 true
      Sample.defaults Sample.store
    = (Returns
         (Sample.returned
            (fst (_confidence_scipy_brentq Sample.evaluate_once
                    (Sample.bisection 30) Sample.square_pow Sample.both 0%nat
                    Sample.parabola 1 true Sample.defaults Sample.store))),
       snd (_confidence_scipy_brentq Sample.evaluate_once
              (Sample.bisection 30) Sample.square_pow Sample.both 0%nat
              Sample.parabola 1 true Sample.defaults Sample.store)))
    by (vm_compute; reflexivity).
  destruct (_confidence_scipy_brentq_returned _ _ _ _ _ _ _ _ _ _ _ _ Hcall)
    as (root & info & b & _ & _ & _ & Hsuccess & _).
  exact Hsuccess.
Defined.

Lemma _confidence_scipy_brentq_leaves_target_frozen_witness :
  fst (_confidence_scipy_brentq Sample.evaluate_once (Sample.bisection 30)
         Sample.square_pow Sample.both 0%nat Sample.parabola 1%float true
         Sample.defaults Sample.store)
  = Returns
      (Sample.returned
         (fst (_confidence_scipy_brentq Sample.evaluate_once
                 (Sample.bisection 30) Sample.square_pow Sample.both 0%nat
                 Sample.parabola 1%float true Sample.defaults Sample.store)))
  /\ par_frozen (Sample.store 0%nat) = false
  /\ par_frozen
       (snd (_confidence_scipy_brentq Sample.evaluate_once
               (Sample.bisection 30) Sample.square_pow Sample.both 0%nat
               Sample.parabola 1%float true Sample.defaults Sample.store)
          0%nat) = true.
Proof.
  split; [vm_compute; reflexivity |]. split; [reflexivity |].
  refine (_confidence_scipy_brentq_leaves_target_frozen Sample.evaluate_once
            (Sample.bisection 30) Sample.square_pow Sample.both 0%nat
            Sample.parabola 1%float true Sample.defaults Sample.store
            (Sample.returned
               (fst (_confidence_scipy_brentq Sample.evaluate_once
                       (Sample.bisection 30) Sample.square_pow Sample.both
                       0%nat Sample.parabola 1%float true Sample.defaults
                       Sample.store)))
            (snd (_confidence_scipy_brentq Sample.evaluate_once
                    (Sample.bisection 30) Sample.square_pow Sample.both 0%nat
                    Sample.parabola 1%float true Sample.defaults
                    Sample.store))
            _ 0%nat).
  vm_compute. reflexivity.
Defined.


(** * Properties of the observation list *)

(** ** Order of floats *)

Lemma SFltb_trans (x y z : spec_float) :
  SFltb x y = true -> SFltb y z = true -> SFltb x z = true.
Proof.
  unfold SFltb, SFcompare.
  destruct x as [s1 | s1 | | s1 m1 e1], y as [s2 | s2 | | s2 m2 e2],
    z as [s3 | s3 | | s3 m3 e3];
    repeat match goal with s : bool |- _ => destruct s end;
    simpl; try congruence;
    rewrite ?Pos.compare_cont_spec; simpl;
    repeat match goal with
      | |- context [Z.compare ?a ?b] => destruct (Z.compare_spec a b)
      | |- context [Pos.compare ?a ?b] => destruct (Pos.compare_spec a b)
      end; simpl; try congruence; try lia.
Qed.

Lemma SFltb_irrefl (x : spec_float) : SFltb x x = false.
Proof.
  unfold SFltb, SFcompare.
  destruct x as [s | s | | s m e]; try destruct s; simpl; try reflexivity;
    rewrite Z.compare_refl, ?Pos.compare_cont_spec, Pos.compare_refl;
    reflexivity.
Qed.

Lemma ltb_trans (x y z : float) :
  (x <? y)%float = true -> (y <? z)%float = true -> (x <? z)%float = true.
Proof. rewrite !ltb_spec. apply SFltb_trans. Qed.

Lemma ltb_irrefl (x : float) : (x <? x)%float = false.
Proof. rewrite ltb_spec. apply SFltb_irrefl. Qed.

(** ** Python's [min] and [max] *)

Section Extreme.

(** [beats item m]: the item replaces the current choice. *)
Variable beats : float -> float -> bool.
Hypothesis beats_trans :
  forall x y z, beats x y = true -> beats y z = true -> beats x z = true.
Hypothesis beats_irrefl : forall x, beats x x = false.

Lemma fold_extreme_seen (l : list float) :
  forall (seen : list float) (v : float),
    In v seen ->
    (forall x, In x seen -> beats x v = false) ->
    let m := fold_left (fun m item => if beats item m then item else m) l v in
    In m (seen ++ l)%list /\ forall x, In x (seen ++ l)%list -> beats x m = false.
Proof.
  induction l as [| item l IH]; intros seen v Hin Hall; simpl.
  - rewrite app_nil_r. split; assumption.
  - replace (seen ++ item :: l)%list with ((seen ++ [item]) ++ l)%list
      by (rewrite <- app_assoc; reflexivity).
    apply IH.
    + apply in_or_app. destruct (beats item v); [right; now left | now left].
    + intros x Hx. apply in_app_or in Hx.
      destruct (beats item v) eqn:Hitem.
      * destruct Hx as [Hx | [<- | []]]; [| apply beats_irrefl].
        destruct (beats x item) eqn:Hxi; [| reflexivity].
        rewrite <- (Hall x Hx). symmetry.
        exact (beats_trans _ _ _ Hxi Hitem).
      * destruct Hx as [Hx | [<- | []]]; [exact (Hall x Hx) | exact Hitem].
Qed.

Lemma fold_extreme (l : list float) (v : float) :
  let m := fold_left (fun m item => if beats item m then item else m) l v in
  In m (v :: l) /\ forall x, In x (v :: l) -> beats x m = false.
Proof.
  apply (fold_extreme_seen l [v] v).
  - now left.
  - intros x [<- | []]. apply beats_irrefl.
Qed.

End Extreme.

(** [min] returns an item of the list that no item is strictly below, and
    raises only on the empty list. *)
Lemma py_min_spec (l : list float) (m : float) :
  py_min l = Returns m ->
  In m l /\ forall x, In x l -> (x <? m)%float = false.
Proof.
  destruct l as [| v l]; simpl; intros Heq; [discriminate |].
  inversion Heq as [Hm]. clear Heq.
  apply (fold_extreme (fun x y => (x <? y)%float) ltb_trans ltb_irrefl l v).
Qed.

Lemma py_max_spec (l : list float) (m : float) :
  py_max l = Returns m ->
  In m l /\ forall x, In x l -> (m <? x)%float = false.
Proof.
  destruct l as [| v l]; simpl; intros Heq; [discriminate |].
  inversion Heq as [Hm]. clear Heq.
  apply (fold_extreme (fun x y => (y <? x)%float)).
  - intros x y z Hxy Hyz. exact (ltb_trans _ _ _ Hyz Hxy).
  - apply ltb_irrefl.
Qed.

Lemma py_min_raises (l : list float) (e : Exception) :
  py_min l = Raises e -> l = [] /\ e = ValueError.
Proof. destruct l; simpl; intros Heq; [now inversion Heq | discriminate]. Qed.

Lemma py_max_raises (l : list float) (e : Exception) :
  py_max l = Raises e -> l = [] /\ e = ValueError.
Proof. destruct l; simpl; intros Heq; [now inversion Heq | discriminate]. Qed.

(** ** Looking an observation up *)

Lemma list_index_cons (y : Z) (l : list Z) (x : Z) :
  list_index (y :: l) x =
  if Z.eqb y x then Returns O
  else and_then (list_index l x) (fun i => Returns (S i)).
Proof. reflexivity. Qed.

Section ObservationList.

Variable PHACountsSpectrum : Type.
Variable EffectiveAreaTable : Type.
Variable EnergyDispersion : Type.
Variable Quantity : Type.
Variable pha_obs_id : PHACountsSpectrum -> Z.
Variable pha_lo_threshold : PHACountsSpectrum -> Quantity.
Variable pha_hi_threshold : PHACountsSpectrum -> Quantity.
Variable to_value : Quantity -> string -> float.

Local Abbreviation Obs :=
  (SpectrumObservation PHACountsSpectrum EffectiveAreaTable EnergyDispersion).
Local Abbreviation lo_of :=
  (fun o : Obs => to_value (lo_threshold pha_lo_threshold o) "TeV").
Local Abbreviation hi_of :=
  (fun o : Obs => to_value (hi_threshold pha_hi_threshold o) "TeV").

Lemma obs_cons (o : Obs) (self : list Obs) (id : Z) :
  SpectrumObservationList_obs pha_obs_id (o :: self) id =
  if Z.eqb (obs_id pha_obs_id o) id then Returns o
  else SpectrumObservationList_obs pha_obs_id self id.
Proof.
  unfold SpectrumObservationList_obs. simpl map. rewrite list_index_cons.
  destruct (Z.eqb (obs_id pha_obs_id o) id); [reflexivity |].
  destruct (list_index (map (obs_id pha_obs_id) self) id) as [i | e];
    reflexivity.
Qed.

(** [obs] returns the first observation of the list that has the identifier
    asked for: every observation before it has another one. *)
Theorem obs_returns_first_match (self : list Obs) (id : Z) (o : Obs) :
  SpectrumObservationList_obs pha_obs_id self id = Returns o ->
  obs_id pha_obs_id o = id
  /\ exists before after,
       self = (before ++ o :: after)%list
       /\ forall o', In o' before -> obs_id pha_obs_id o' <> id.
Proof.
  induction self as [| o0 self IH]; intros Hobs.
  - discriminate Hobs.
  - rewrite obs_cons in Hobs.
    destruct (Z.eqb_spec (obs_id pha_obs_id o0) id) as [Heq | Hne].
    + inversion Hobs; subst o0. split; [exact Heq |].
      exists [], self. split; [reflexivity |]. intros o' [].
    + destruct (IH Hobs) as (Hid & before & after & Hself & Hbefore).
      split; [exact Hid |].
      exists (o0 :: before), after. split.
      * simpl. now rewrite Hself.
      * intros o' [<- | Hin]; [exact Hne | now apply Hbefore].
Qed.

(** [obs] raises exactly when no observation of the list has the
    identifier, and then it raises [ValueError], the error of [list.index];
    it never fails in another way. *)
Theorem obs_raises_iff_absent (self : list Obs) (id : Z) :
  (SpectrumObservationList_obs pha_obs_id self id = Raises ValueError
   <-> forall o, In o self -> obs_id pha_obs_id o <> id)
  /\ forall e,
       SpectrumObservationList_obs pha_obs_id self id = Raises e ->
       e = ValueError.
Proof.
  induction self as [| o0 self [IHiff IHonly]].
  - split; [split |].
    + intros _ o [].
    + reflexivity.
    + intros e He. now inversion He.
  - rewrite obs_cons.
    destruct (Z.eqb_spec (obs_id pha_obs_id o0) id) as [Heq | Hne].
    + split; [split |].
      * discriminate.
      * intros Hall. exfalso. apply (Hall o0); [now left | exact Heq].
      * discriminate.
    + split; [split |].
      * intros Hraise o [<- | Hin]; [exact Hne |].
        now apply (proj1 IHiff Hraise).
      * intros Hall. apply IHiff. intros o Hin. apply Hall. now right.
      * exact IHonly.
Qed.

(** ** The safe range *)

Lemma in_map_threshold (f : Obs -> float) (self : list Obs) (o : Obs) :
  In o self -> In (f o) (map f self).
Proof. apply in_map. Qed.


(** The inclusive range: its two ends are thresholds of observations of the
    list, no observation has a low threshold strictly below its low end,
    and none a high threshold strictly above its high end. *)
Theorem safe_range_inclusive_covers (self : list Obs) (range : list float)
    (unit : string) :
  SpectrumObservationList_safe_range pha_lo_threshold pha_hi_threshold
    to_value self "inclusive" = Returns (range, unit) ->
  exists range_lo range_hi,
    range = [range_lo; range_hi] /\ unit = "TeV"
    /\ In range_lo (map lo_of self) /\ In range_hi (map hi_of self)
    /\ forall o, In o self ->
         (lo_of o <? range_lo)%float = false
         /\ (range_hi <? hi_of o)%float = false.
Proof.
  unfold SpectrumObservationList_safe_range. simpl.
  destruct (py_min (map lo_of self)) as [range_lo | e] eqn:Hmin;
    [| discriminate].
  destruct (py_max (map hi_of self)) as [range_hi | e] eqn:Hmax;
    [| discriminate].
  simpl. intros Heq. inversion Heq; subst. clear Heq.
  apply py_min_spec in Hmin. destruct Hmin as [Hin_lo Hlo].
  apply py_max_spec in Hmax. destruct Hmax as [Hin_hi Hhi].
  exists range_lo, range_hi. repeat split; try assumption.
  - apply Hlo. now apply (in_map_threshold lo_of).
  - apply Hhi. now apply (in_map_threshold hi_of).
Qed.

(** The exclusive range: no observation has a low threshold strictly above
    its low end, and none a high threshold strictly below its high end. *)
Theorem safe_range_exclusive_within (self : list Obs) (range : list float)
    (unit : string) :
  SpectrumObservationList_safe_range pha_lo_threshold pha_hi_threshold
    to_value self "exclusive" = Returns (range, unit) ->
  exists range_lo range_hi,
    range = [range_lo; range_hi] /\ unit = "TeV"
    /\ In range_lo (map lo_of self) /\ In range_hi (map hi_of self)
    /\ forall o, In o self ->
         (range_lo <? lo_of o)%float = false
         /\ (hi_of o <? range_hi)%float = false.
Proof.
  unfold SpectrumObservationList_safe_range. simpl.
  destruct (py_max (map lo_of self)) as [range_lo | e] eqn:Hmax;
    [| discriminate].
  destruct (py_min (map hi_of self)) as [range_hi | e] eqn:Hmin;
    [| discriminate].
  simpl. intros Heq. inversion Heq; subst. clear Heq.
  apply py_max_spec in Hmax. destruct Hmax as [Hin_lo Hlo].
  apply py_min_spec in Hmin. destruct Hmin as [Hin_hi Hhi].
  exists range_lo, range_hi. repeat split; try assumption.
  - apply Hlo. now apply (in_map_threshold lo_of).
  - apply Hhi. now apply (in_map_threshold hi_of).
Qed.

End ObservationList.

(** ** Energy thresholds *)

Lemma last_cons_default {A} (l : list A) :
  forall x d d' : A, List.last (x :: l) d = List.last (x :: l) d'.
Proof.
  induction l as [| y l IH]; intros x d d'; [reflexivity |].
  change (List.last (y :: l) d = List.last (y :: l) d'). apply IH.
Qed.

(** [l[-1]] of a list with first item [d] is [last] of the rest, with [d]
    when there is no rest. *)
Lemma nth_error_last_default {A} (l : list A) :
  forall d : A, nth_error (d :: l) (length l) = Some (List.last l d).
Proof.
  induction l as [| x l IH]; intros d; [reflexivity |].
  change (nth_error (x :: l) (length l) = Some (List.last (x :: l) d)).
  rewrite IH. f_equal.
  destruct l as [| y l]; [reflexivity |].
  change (List.last (y :: l) x = List.last (y :: l) d).
  apply last_cons_default.
Qed.

Section EnergyThreshold.

Variable PHACountsSpectrum : Type.
Variable EffectiveAreaTable : Type.
Variable EnergyDispersion : Type.
Variable Quantity : Type.
Variable pha_set_lo_threshold : Quantity -> PHACountsSpectrum -> PHACountsSpectrum.
Variable pha_set_hi_threshold : Quantity -> PHACountsSpectrum -> PHACountsSpectrum.
Variable pha_reset_thresholds : PHACountsSpectrum -> PHACountsSpectrum.
Variable scale_quantity : float -> Quantity -> Quantity.
Variable aeff_max_area : EffectiveAreaTable -> Quantity.
Variable aeff_energy_edges : EffectiveAreaTable -> list Quantity.
Variable aeff_find_energy :
  EffectiveAreaTable -> Quantity -> option Quantity -> Outcome Quantity.
Variable edisp_get_bias_energy :
  EnergyDispersion -> float -> option Quantity -> Outcome Quantity.

Local Abbreviation Obs :=
  (SpectrumObservation PHACountsSpectrum EffectiveAreaTable EnergyDispersion).

(** A [method_lo] that is none of the three names is refused with
    [ValueError] before any threshold is computed or written: the
    observation is as it was, apart from the reset when one was asked for. *)
Theorem compute_energy_threshold_invalid_method_lo
    (self : Obs) (method_lo method_hi : string) (reset : bool)
    (kwargs : gmap string float) :
  method_lo <> "area_max" -> method_lo <> "energy_bias" ->
  method_lo <> "none" ->
  compute_energy_threshold pha_set_lo_threshold pha_set_hi_threshold
    pha_reset_thresholds scale_quantity aeff_max_area aeff_energy_edges
    aeff_find_energy edisp_get_bias_energy
    self method_lo method_hi reset kwargs
  = (Raises ValueError,
     if reset then reset_thresholds pha_reset_thresholds self else self).
Proof.
  intros Harea Hbias Hnone.
  unfold compute_energy_threshold, low_threshold.
  destruct (String.eqb_spec method_lo "area_max"); [contradiction |].
  destruct (String.eqb_spec method_lo "energy_bias"); [contradiction |].
  destruct (String.eqb_spec method_lo "none"); [contradiction |].
  reflexivity.
Qed.

(** [method_hi] is only looked at after the low threshold has been written:
    when it is none of the three names the call raises [ValueError] and
    leaves the observation with the new low threshold on the on vector, and
    on the off vector when there is one, and the high thresholds untouched. *)
Theorem compute_energy_threshold_invalid_method_hi
    (self : Obs) (method_lo method_hi : string) (reset : bool)
    (kwargs : gmap string float) (thres_lo : Quantity) :
  low_threshold scale_quantity aeff_max_area aeff_energy_edges
    aeff_find_energy edisp_get_bias_energy
    (if reset then reset_thresholds pha_reset_thresholds self else self)
    method_lo kwargs
    = Returns thres_lo ->
  method_hi <> "area_max" -> method_hi <> "energy_bias" ->
  method_hi <> "none" ->
  compute_energy_threshold pha_set_lo_threshold pha_set_hi_threshold
    pha_reset_thresholds scale_quantity aeff_max_area aeff_energy_edges
    aeff_find_energy edisp_get_bias_energy
    self method_lo method_hi reset kwargs
  = (Raises ValueError,
     set_lo_threshold pha_set_lo_threshold thres_lo
       (if reset then reset_thresholds pha_reset_thresholds self else self)).
Proof.
  intros Hlow Harea Hbias Hnone.
  unfold compute_energy_threshold. rewrite Hlow. unfold high_threshold.
  destruct (String.eqb_spec method_hi "area_max"); [contradiction |].
  destruct (String.eqb_spec method_hi "energy_bias"); [contradiction |].
  destruct (String.eqb_spec method_hi "none"); [contradiction |].
  reflexivity.
Qed.

(** The default methods, ["none"] and ["none"], still read the effective
    area.  Without one the call raises [AttributeError] and writes nothing;
    with one it sets the low threshold to the first and the high threshold to
    the last edge of the true energy axis, or raises [IndexError] when the
    axis has no edge. *)
Theorem compute_energy_threshold_defaults
    (self : Obs) (reset : bool) (kwargs : gmap string float) :
  let start :=
    if reset then reset_thresholds pha_reset_thresholds self else self in
  compute_energy_threshold pha_set_lo_threshold pha_set_hi_threshold
    pha_reset_thresholds scale_quantity aeff_max_area aeff_energy_edges
    aeff_find_energy edisp_get_bias_energy
    self "none" "none" reset kwargs =
  match aeff self with
  | None => (Raises (OtherError "AttributeError"), start)
  | Some table =>
      match aeff_energy_edges table with
      | [] => (Raises IndexError, start)
      | edge :: edges =>
          (Returns tt,
           set_hi_threshold pha_set_hi_threshold (List.last edges edge)
             (set_lo_threshold pha_set_lo_threshold edge start))
      end
  end.
Proof.
  intros start.
  assert (Haeff : aeff start = aeff self) by (subst start; now destruct reset).
  unfold compute_energy_threshold, low_threshold, high_threshold, e_true.
  fold start. simpl. rewrite Haeff.
  destruct (aeff self) as [table |]; simpl; [| reflexivity].
  destruct (aeff_energy_edges table) as [| edge edges] eqn:Hedges; simpl;
    [reflexivity |].
  unfold last_item, getitem. simpl.
  rewrite ?Nat.sub_0_r.
  rewrite nth_error_last_default. reflexivity.
Qed.

End EnergyThreshold.

(** ** The properties at concrete observations *)

Lemma obs_returns_first_match_witness :
  SampleObservation.lookup SampleObservation.observations 23523
    = Returns SampleObservation.first
  /\ obs_id SampleObservation.identifier SampleObservation.first = 23523%Z
  /\ exists before after,
       SampleObservation.observations
         = (before ++ SampleObservation.first :: after)%list
       /\ forall o', In o' before ->
            obs_id SampleObservation.identifier o' <> 23523%Z.
Proof.
  split; [reflexivity |].
  exact (obs_returns_first_match SampleObservation.Spectrum
           SampleObservation.Area unit SampleObservation.identifier
           SampleObservation.observations 23523 SampleObservation.first
           eq_refl).
Defined.

Lemma safe_range_inclusive_covers_witness :
  SampleObservation.safe_range SampleObservation.observations "inclusive"
    = Returns ([1%float; 40%float], "TeV")
  /\ exists range_lo range_hi,
       [1%float; 40%float] = [range_lo; range_hi] /\ "TeV" = "TeV"
       /\ In range_lo
            (map (fun o : SampleObservation.Observation =>
                    SampleObservation.in_unit
                      (lo_threshold SampleObservation.low o) "TeV")
               SampleObservation.observations)
       /\ In range_hi
            (map (fun o : SampleObservation.Observation =>
                    SampleObservation.in_unit
                      (hi_threshold SampleObservation.high o) "TeV")
               SampleObservation.observations)
       /\ forall o, In o SampleObservation.observations ->
            (SampleObservation.in_unit
               (lo_threshold SampleObservation.low o) "TeV" <? range_lo)%float
              = false
            /\ (range_hi <? SampleObservation.in_unit
                    (hi_threshold SampleObservation.high o) "TeV")%float
                 = false.
Proof.
  split; [reflexivity |].
  exact (safe_range_inclusive_covers SampleObservation.Spectrum
           SampleObservation.Area unit float SampleObservation.low
           SampleObservation.high SampleObservation.in_unit
           SampleObservation.observations [1%float; 40%float] "TeV" eq_refl).
Defined.

Lemma safe_range_exclusive_within_witness :
  SampleObservation.safe_range SampleObservation.observations "exclusive"
    = Returns ([4%float; 20%float], "TeV")
  /\ exists range_lo range_hi,
       [4%float; 20%float] = [range_lo; range_hi] /\ "TeV" = "TeV"
       /\ In range_lo
            (map (fun o : SampleObservation.Observation =>
                    SampleObservation.in_unit
                      (lo_threshold SampleObservation.low o) "TeV")
               SampleObservation.observations)
       /\ In range_hi
            (map (fun o : SampleObservation.Observation =>
                    SampleObservation.in_unit
                      (hi_threshold SampleObservation.high o) "TeV")
               SampleObservation.observations)
       /\ forall o, In o SampleObservation.observations ->
            (range_lo <? SampleObservation.in_unit
                (lo_threshold SampleObservation.low o) "TeV")%float
              = false
            /\ (SampleObservation.in_unit
                  (hi_threshold SampleObservation.high o) "TeV" <? range_hi)%float
                 = false.
Proof.
  split; [reflexivity |].
  exact (safe_range_exclusive_within SampleObservation.Spectrum
           SampleObservation.Area unit float SampleObservation.low
           SampleObservation.high SampleObservation.in_unit
           SampleObservation.observations [4%float; 20%float] "TeV" eq_refl).
Defined.

Lemma compute_energy_threshold_invalid_method_lo_witness :
  SampleObservation.compute SampleObservation.first "area" "none" false ∅
  = (Raises ValueError, SampleObservation.first).
Proof.
  apply (compute_energy_threshold_invalid_method_lo SampleObservation.Spectrum
           SampleObservation.Area unit float SampleObservation.set_low
           SampleObservation.set_high SampleObservation.reset
           SampleObservation.times SampleObservation.largest
           SampleObservation.edges SampleObservation.find_energy
           SampleObservation.bias_energy SampleObservation.first
           "area" "none" false ∅);
    discriminate.
Defined.

Lemma compute_energy_threshold_invalid_method_hi_witness :
  low_threshold SampleObservation.times SampleObservation.largest
    SampleObservation.edges SampleObservation.find_energy
    SampleObservation.bias_energy SampleObservation.first "none" ∅
    = Returns 0.5%float
  /\ SampleObservation.compute SampleObservation.first "none" "area" false ∅
     = (Raises ValueError,
        set_lo_threshold SampleObservation.set_low 0.5%float
          SampleObservation.first).
Proof.
  split; [reflexivity |].
  apply (compute_energy_threshold_invalid_method_hi SampleObservation.Spectrum
           SampleObservation.Area unit float SampleObservation.set_low
           SampleObservation.set_high SampleObservation.reset
           SampleObservation.times SampleObservation.largest
           SampleObservation.edges SampleObservation.find_energy
           SampleObservation.bias_energy SampleObservation.first
           "none" "area" false ∅ 0.5%float);
    [reflexivity | discriminate | discriminate | discriminate].
Defined.

(** ** From observations to datasets *)

Lemma last_cons {A} (l : list A) (x d : A) :
  List.last (x :: l) d = List.last l x.
Proof.
  destruct l as [| y l]; [reflexivity |].
  change (List.last (y :: l) d = List.last (y :: l) x).
  apply last_cons_default.
Qed.

Section DatasetList.

Variable PHACountsSpectrum : Type.
Variable EffectiveAreaTable : Type.
Variable EnergyDispersion : Type.
Variable Quantity : Type.
Variable Model : Type.
Variable Dataset : Type.
Variable DatasetList : Type.
Variable SpectrumDatasetOnOff :
  PHACountsSpectrum -> option EffectiveAreaTable -> PHACountsSpectrum ->
  option EnergyDispersion -> Quantity -> list bool -> Outcome Dataset.
Variable SpectrumDataset :
  PHACountsSpectrum -> option EffectiveAreaTable ->
  option EnergyDispersion -> Quantity -> list bool -> Outcome Dataset.
Variable dataset_clear_edisp : Dataset -> Outcome Dataset.
Variable dataset_set_model : option Model -> Dataset -> Outcome Dataset.
Variable dataset_counts_on_edges : Dataset -> Outcome (list Quantity).
Variable Datasets : list Dataset -> option (list bool) -> Outcome DatasetList.
Variable pha_quality : PHACountsSpectrum -> list Z.
Variable pha_livetime : PHACountsSpectrum -> Quantity.
Variable quantity_ge : Quantity -> Quantity -> bool.
Variable quantity_le : Quantity -> Quantity -> bool.

Local Abbreviation Obs :=
  (SpectrumObservation PHACountsSpectrum EffectiveAreaTable EnergyDispersion).
Local Abbreviation one :=
  (prepare_dataset SpectrumDatasetOnOff SpectrumDataset dataset_clear_edisp
     dataset_set_model pha_quality pha_livetime).
Local Abbreviation rounds :=
  (datasets_loop SpectrumDatasetOnOff SpectrumDataset dataset_clear_edisp
     dataset_set_model pha_quality pha_livetime).
Local Abbreviation every :=
  (prepare_all SpectrumDatasetOnOff SpectrumDataset dataset_clear_edisp
     dataset_set_model pha_quality pha_livetime).

(** The loop adds the datasets of the observations to the list, in order,
    and leaves [dataset] at the last one, or as it was when there was no
    observation. *)
Lemma datasets_loop_spec model forward_folded (self : list Obs) :
  forall (datasets : list Dataset) (dataset : option Dataset),
    rounds model forward_folded self datasets dataset =
    and_then (every model forward_folded self) (fun new =>
    Returns ((datasets ++ new)%list,
             match new with
             | [] => dataset
             | d :: new' => Some (List.last new' d)
             end)).
Proof.
  induction self as [| obs rest IH]; intros datasets dataset; simpl.
  - now rewrite app_nil_r.
  - destruct (one model forward_folded obs) as [d | e]; simpl;
      [| reflexivity].
    rewrite IH.
    destruct (every model forward_folded rest) as [new | e]; simpl;
      [| reflexivity].
    rewrite <- app_assoc. simpl. f_equal. f_equal.
    destruct new as [| d' new']; [reflexivity |].
    now rewrite last_cons.
Qed.

Lemma prepare_all_snoc model forward_folded (front : list Obs) (obs : Obs) :
  forall datasets,
    every model forward_folded (front ++ [obs])%list = Returns datasets ->
    exists before d,
      every model forward_folded front = Returns before
      /\ one model forward_folded obs = Returns d
      /\ datasets = (before ++ [d])%list.
Proof.
  induction front as [| o front IH]; intros datasets; simpl.
  - destruct (one model forward_folded obs) as [d | e]; simpl;
      [| discriminate].
    intros Heq. inversion Heq; subst. now exists [], d.
  - destruct (one model forward_folded o) as [d0 | e]; simpl;
      [| discriminate].
    destruct (every model forward_folded (front ++ [obs])%list) as [rest | e]
      eqn:Hrest; simpl; [| discriminate].
    intros Heq. inversion Heq; subst. clear Heq.
    destruct (IH rest eq_refl) as (before & d & Hbefore & Hd & ->).
    exists (d0 :: before), d. rewrite Hbefore. simpl. now split.
Qed.

Lemma prepare_all_length model forward_folded (self : list Obs) :
  forall datasets,
    every model forward_folded self = Returns datasets ->
    length datasets = length self.
Proof.
  induction self as [| o self IH]; intros datasets; simpl.
  - intros Heq. now inversion Heq.
  - destruct (one model forward_folded o) as [d | e]; simpl;
      [| discriminate].
    destruct (every model forward_folded self) as [rest | e]; simpl;
      [| discriminate].
    intros Heq. inversion Heq; subst. simpl. f_equal. now apply IH.
Qed.

(** On the empty list, [to_spectrum_datasets] with a fit range raises
    [UnboundLocalError]: no round of the loop has bound [dataset], which the
    mask is read from.  Without a fit range it builds the empty collection. *)
Theorem to_spectrum_datasets_empty model fit_range forward_folded :
  to_spectrum_datasets SpectrumDatasetOnOff SpectrumDataset
    dataset_clear_edisp dataset_set_model dataset_counts_on_edges Datasets
    pha_quality pha_livetime quantity_ge quantity_le
    [] model fit_range forward_folded =
  match fit_range with
  | Some _ => Raises UnboundLocalError
  | None => Datasets [] None
  end.
Proof. destruct fit_range; reflexivity. Qed.

(** With a fit range and at least one observation, the mask is computed
    from the energy axis of the dataset of the last observation alone, and
    the collection is built from one dataset for each observation, in the
    order of the list. *)
Theorem to_spectrum_datasets_mask_from_last
    (front : list Obs) (obs : Obs) model fit_range forward_folded datasets :
  prepare_all SpectrumDatasetOnOff SpectrumDataset dataset_clear_edisp
    dataset_set_model pha_quality pha_livetime
    model forward_folded (front ++ [obs])%list = Returns datasets ->
  exists before d,
    datasets = (before ++ [d])%list
    /\ length datasets = length (front ++ [obs])%list
    /\ prepare_dataset SpectrumDatasetOnOff SpectrumDataset
         dataset_clear_edisp dataset_set_model pha_quality pha_livetime
         model forward_folded obs = Returns d
    /\ to_spectrum_datasets SpectrumDatasetOnOff SpectrumDataset
         dataset_clear_edisp dataset_set_model dataset_counts_on_edges
         Datasets pha_quality pha_livetime quantity_ge quantity_le
         (front ++ [obs])%list model (Some fit_range) forward_folded =
       and_then (dataset_counts_on_edges d) (fun energy =>
       Datasets datasets
         (Some (fit_range_mask quantity_ge quantity_le energy fit_range))).
Proof.
  intros Hall.
  destruct (prepare_all_snoc _ _ _ _ _ Hall) as (before & d & _ & Hd & Heq).
  exists before, d. split; [exact Heq |].
  split; [now apply (prepare_all_length model forward_folded) |].
  split; [exact Hd |].
  unfold to_spectrum_datasets. rewrite datasets_loop_spec, Hall. simpl.
  subst datasets.
  destruct before as [| d0 before]; simpl; [reflexivity |].
  rewrite last_last. reflexivity.
Qed.

End DatasetList.

Lemma to_spectrum_datasets_mask_from_last_witness :
  SampleDataset.convert SampleObservation.observations (Some (1%float, 30%float))
  = Returns
      ([SampleDataset.mkData 23523 [1%float; 30%float] true;
        SampleDataset.mkData 23526 [2%float; 20%float] true;
        SampleDataset.mkData 23523 [4%float; 40%float] true],
       Some [false]).
Proof.
  destruct (to_spectrum_datasets_mask_from_last
              SampleObservation.Spectrum SampleObservation.Area unit float
              unit SampleDataset.Data (list SampleDataset.Data * option (list bool))
              SampleDataset.on_off SampleDataset.on_only
              SampleDataset.clear_edisp SampleDataset.set_model
              SampleDataset.counts_on_edges SampleDataset.collection
              SampleDataset.quality SampleDataset.livetime SampleDataset.ge
              SampleDataset.le
              [SampleObservation.first; SampleObservation.second]
              SampleObservation.third None (1%float, 30%float) true
              _ eq_refl)
    as (before & d & _ & _ & Hd & Hconvert).
  inversion Hd; subst d. exact Hconvert.
Defined.
